(** * ResourceCache: the reference-counted loader registry

    A shallow embedding of [ResourceCache] (the registry shared across
    3D Tiles and glTF) and of the protocol its consumers follow:
    [get], [load], [unload], the typed constructor [loadExternalBuffer]
    and the test-only [clearForSpecs].

    The JavaScript is single-threaded and synchronous here, so every
    function is a state transformer over a [Realm]: the registry object
    [ResourceCache.cacheEntries], the log of calls made on loader objects
    and the allocator of object identities.  A [throw] ends the call and
    leaves the realm as it was at the point of the [throw].

    Modelling notes.
    - [referenceCount] is a JavaScript number; it is an integer here
      ([Z]), which is exact below 2^53.
    - Loaders are opaque to the cache: [load()] and [destroy()] are
      recorded as calls on the loader object.  What a loader does inside
      such a call is its own: the properties of [get], [load], [unload]
      and the typed constructors are about the entry of the key of the
      call.  For [clearForSpecs], which walks the whole registry,
      [destroy()] is modelled as the specification describes it, with the
      calls of [unload] on the dependencies of the loader (the functions
      [unloadWith], [destroyWith] and [clearForSpecsWith]).
    - [cacheEntries] is an object used as a map; keys are taken not to be
      names inherited from [Object.prototype].
    - The checks between [//>>includeStart('debug', ...)] and
      [//>>includeEnd('debug')] are part of the source and are modelled.
    - [Check.typeOf.string] is called by [get] and [load] but defined
      elsewhere; the cache is written against any verdict of that check
      on string keys, and the properties say where they need a key to
      pass it.  The check is a test of the type of its argument, so at
      the sample inputs it is [anyString], which every string passes. *)

From Stdlib Require Import ZArith String List Lia.
From stdpp Require Import base option list gmap strings.

Local Open Scope string_scope.
Local Open Scope list_scope.
Local Open Scope Z_scope.

(** ** Data model *)

(** A loader object: its identity as an object and its [cacheKey]
    property, which the cache only reads. *)
Record ResourceLoader : Type := {
  objectId : nat;
  cacheKey : string;
}.

#[global] Instance ResourceLoader_eq_dec : EqDecision ResourceLoader.
Proof. solve_decision. Defined.

(** [function CacheEntry(options)]: the three fields of an entry. *)
Record CacheEntry : Type := {
  referenceCount : Z;
  resourceLoader : ResourceLoader;
  keepResident : bool;
}.

(** What the cache does to loader objects. *)
Inductive Call : Type :=
| Constructed (l : ResourceLoader)    (* new BufferLoader({...})   *)
| LoadCalled (l : ResourceLoader)     (* resourceLoader.load()     *)
| DestroyCalled (l : ResourceLoader). (* resourceLoader.destroy()  *)

#[global] Instance Call_eq_dec : EqDecision Call.
Proof. solve_decision. Defined.

Record Realm : Type := {
  cacheEntries : gmap string CacheEntry;
  calls : list Call;
  nextObjectId : nat;
}.

Inductive Exception : Type :=
| DeveloperError (message : string)  (* throw new DeveloperError(message) *)
| CheckFailed (name : string).       (* thrown from inside Check.typeOf.* *)

Inductive Completion (A : Type) : Type :=
| Normal (v : A) (r : Realm)
| Throw (e : Exception) (r : Realm).
Arguments Normal {A} v r.
Arguments Throw {A} e r.

Definition Js (A : Type) : Type := Realm -> Completion A.

Definition ret {A} (v : A) : Js A := fun r => Normal v r.

Definition bind {A B} (m : Js A) (k : A -> Js B) : Js B :=
  fun r => match m r with
           | Normal v r' => k v r'
           | Throw e r' => Throw e r'
           end.

Definition throw {A} (e : Exception) : Js A := fun r => Throw e r.

Notation "'let*' x ':=' m 'in' k" := (bind m (fun x => k))
  (at level 10, x name, m at level 100, k at level 200).

(** The realm a call leaves behind, however it completes. *)
Definition realmOf {A} (c : Completion A) : Realm :=
  match c with Normal _ r => r | Throw _ r => r end.

Definition isThrow {A} (c : Completion A) : bool :=
  match c with Normal _ _ => false | Throw _ _ => true end.

(** *** Primitive accesses to the realm *)

(** [ResourceCache.cacheEntries[cacheKey]] *)
Definition readEntry (key : string) : Js (option CacheEntry) :=
  fun r => Normal (cacheEntries r !! key) r.

(** [ResourceCache.cacheEntries[cacheKey] = entry], and also a write to a
    field of the entry object stored under [key]. *)
Definition writeEntry (key : string) (entry : CacheEntry) : Js unit :=
  fun r => Normal tt {| cacheEntries := <[key := entry]> (cacheEntries r);
                        calls := calls r;
                        nextObjectId := nextObjectId r |}.

(** [delete ResourceCache.cacheEntries[cacheKey]] *)
Definition deleteEntry (key : string) : Js unit :=
  fun r => Normal tt {| cacheEntries := delete key (cacheEntries r);
                        calls := calls r;
                        nextObjectId := nextObjectId r |}.

(** A method call on a loader object, appended to the log; what the
    loader does inside the call is not part of it (see [destroyWith] for
    a [destroy()] that releases the dependencies of the loader). *)
Definition invoke (c : Call) : Js unit :=
  fun r => Normal tt {| cacheEntries := cacheEntries r;
                        calls := calls r ++ [c];
                        nextObjectId := nextObjectId r |}.

(** Modelled from the spec: [defined] (Core/defined.js is not among the
    sources); "if an entry exists" is neither [undefined] nor [null]. *)
Definition defined {A} (value : option A) : bool :=
  match value with Some _ => true | None => false end.

(** Modelled from the spec: [defaultValue] (Core/defaultValue.js is not
    among the sources); [register(loader, keepResident=false)]: the first
    argument when it is defined, the second otherwise. *)
Definition defaultValue {A} (a : option A) (b : A) : A :=
  match a with Some v => v | None => b end.

(** Modelled from the spec: the loader constructors ([BufferLoader] is not
    among the sources).  A constructor receives "the previously-derived
    cache key" and yields a new object whose [cacheKey] is that key. *)
Definition newLoader (key : string) : Js ResourceLoader :=
  fun r =>
    let l := {| objectId := nextObjectId r; cacheKey := key |} in
    Normal l {| cacheEntries := cacheEntries r;
                calls := calls r ++ [Constructed l];
                nextObjectId := S (nextObjectId r) |}.

(** [new CacheEntry(options)] *)
Definition newCacheEntry (loader : ResourceLoader) (resident : option bool)
  : CacheEntry :=
  {| referenceCount := 1;
     resourceLoader := loader;
     keepResident := defaultValue resident false |}.

Definition setReferenceCount (entry : CacheEntry) (n : Z) : CacheEntry :=
  {| referenceCount := n;
     resourceLoader := resourceLoader entry;
     keepResident := keepResident entry |}.

(** [options] of [ResourceCache.load] *)
Record LoadOptions : Type := {
  load_resourceLoader : ResourceLoader;
  load_keepResident : option bool;
}.

(** Sequencing of calls made one after the other by a consumer. *)
Fixpoint forEach {A} (xs : list A) (body : A -> Js unit) : Js unit :=
  match xs with
  | [] => ret tt
  | x :: xs' => let* _ := body x in forEach xs' body
  end.

Fixpoint mapJs {A B} (f : A -> Js B) (xs : list A) : Js (list B) :=
  match xs with
  | [] => ret []
  | x :: xs' => let* y := f x in let* ys := mapJs f xs' in ret (y :: ys)
  end.

Fixpoint repeatJs (n : nat) (m : Js unit) : Js unit :=
  match n with
  | O => ret tt
  | S n' => let* _ := m in repeatJs n' m
  end.

(** [Check.typeOf.string] on a value that is a string (Core/Check.js is
    not among the sources): the check looks at the type of its argument
    only, so every [string] passes it, the empty one included.  [get] and
    [load] make no other test on the key before they look it up. *)
Definition anyString (s : string) : bool := true.

(** ** Sample realms

    Concrete loaders and registries on which the functions are run. *)

Definition bufferKey : string := "external-buffer:https://example.com/a.bin".
Definition schemaKey : string := "schema:https://example.com/schema.json".

(** A key deriver for buffers addressed by their URL. *)
Definition urlBufferKey (url : string) : string := "external-buffer:" +:+ url.

Definition bufferA : ResourceLoader := {| objectId := 0; cacheKey := bufferKey |}.

(** Another loader object that carries the key of [bufferA]. *)
Definition bufferB : ResourceLoader := {| objectId := 5; cacheKey := bufferKey |}.

Definition schemaS : ResourceLoader := {| objectId := 1; cacheKey := schemaKey |}.

Definition bufferEntry (count : Z) : CacheEntry :=
  {| referenceCount := count; resourceLoader := bufferA; keepResident := false |}.

Definition schemaEntry (count : Z) : CacheEntry :=
  {| referenceCount := count; resourceLoader := schemaS; keepResident := true |}.

Definition emptyRealm : Realm :=
  {| cacheEntries := ∅; calls := []; nextObjectId := 0 |}.

(** A buffer held by three consumers and a resident schema held by one. *)
Definition sharedRealm : Realm :=
  {| cacheEntries :=
       <[bufferKey := bufferEntry 3]> (<[schemaKey := schemaEntry 1]> ∅);
     calls := [Constructed schemaS; LoadCalled schemaS;
               Constructed bufferA; LoadCalled bufferA];
     nextObjectId := 2 |}.

(** The buffer with one reference left. *)
Definition lastReferenceRealm : Realm :=
  {| cacheEntries := <[bufferKey := bufferEntry 1]> ∅;
     calls := [Constructed bufferA; LoadCalled bufferA];
     nextObjectId := 1 |}.

(** The resident schema after all its consumers released it. *)
Definition releasedRealm : Realm :=
  {| cacheEntries := <[schemaKey := schemaEntry 0]> ∅;
     calls := [Constructed schemaS; LoadCalled schemaS];
     nextObjectId := 2 |}.

(** ** Tile content: [preproces3DTileContent]

    The function looks at the first bytes of a tile payload and, for a
    payload that is not binary, at two properties of the parsed JSON.
    It touches no state: it returns a result or throws. *)

Section TileContent.

(** JSON numbers are not looked at. *)
Variable Number : Type.

(** A JSON value; an object is the list of its members, each name
    once. *)
#[local] Unset Elimination Schemes.
Inductive Json : Type :=
| JsonNull
| JsonBoolean (b : bool)
| JsonNumber (n : Number)
| JsonString (s : string)
| JsonArray (items : list Json)
| JsonObject (members : list (string * Json)).
#[local] Set Elimination Schemes.

Definition member (name : string) (members : list (string * Json))
  : option Json :=
  snd <$> List.find (fun m => String.eqb (fst m) name) members.

(** The outcome of reading [json.name], for a [name] that no built-in
    prototype defines: a [TypeError] on [null], the member of an object,
    [undefined] on everything else. *)
Inductive Read : Type :=
| ReadThrows
| ReadUndefined
| ReadValue (v : Json).

Definition getProperty (json : Json) (name : string) : Read :=
  match json with
  | JsonNull => ReadThrows
  | JsonObject members =>
      match member name members with
      | Some v => ReadValue v
      | None => ReadUndefined
      end
  | _ => ReadUndefined
  end.

(** [defined(value)]: neither [undefined] nor [null]. *)
Definition definedValue (read : Read) : bool :=
  match read with
  | ReadValue JsonNull => false
  | ReadValue _ => true
  | _ => false
  end.

Inductive TileError : Type :=
| RuntimeError (message : string)  (* throw new RuntimeError(message) *)
| TypeError.                       (* a property read on null *)

(** [PreprocessedContent] *)
Record PreprocessedContent : Type := {
  contentType : string;
  binaryPayload : option (list Byte.byte);
  jsonPayload : option Json;
}.

(** What the function imports: [getMagic], the test
    [Cesium3DTileContentType.isBinaryFormat], the two content types it
    names, and [getJsonFromTypedArray], which returns the parsed value or
    throws ([None]). *)
Variable getMagic : list Byte.byte -> string.
Variable isBinaryFormat : string -> bool.
Variable EXTERNAL_TILESET : string.
Variable GLTF : string.
Variable getJsonFromTypedArray : list Byte.byte -> option Json.

(** [function getJsonContent(arrayBuffer, byteOffset)] *)
Definition getJsonContent (arrayBuffer : list Byte.byte)
  (byteOffset : option Z) : TileError + Json :=
  let byteOffset := defaultValue byteOffset 0 in
  let uint8Array := arrayBuffer in
  match getJsonFromTypedArray uint8Array with
  | Some json => inr json
  | None => inl (RuntimeError "Invalid tile content.")
  end.

(** [export default function preproces3DTileContent(arrayBuffer)] *)
Definition preproces3DTileContent (arrayBuffer : list Byte.byte)
  : TileError + PreprocessedContent :=
  let uint8Array := arrayBuffer in
  let contentIdentifier := getMagic uint8Array in
  let contentIdentifier :=
    if String.eqb contentIdentifier "glTF" then "glb" else contentIdentifier in
  if isBinaryFormat contentIdentifier then
    inr {| contentType := contentIdentifier;
           binaryPayload := Some uint8Array;
           jsonPayload := None |}
  else
    match getJsonContent arrayBuffer (Some 0) with
    | inl error => inl error
    | inr json =>
        match getProperty json "geometricError" with
        | ReadThrows => inl TypeError
        | geometricError =>
            if definedValue geometricError then
              inr {| contentType := EXTERNAL_TILESET;
                     binaryPayload := None;
                     jsonPayload := Some json |}
            else
              match getProperty json "asset" with
              | ReadThrows => inl TypeError
              | asset =>
                  if definedValue asset then
                    inr {| contentType := GLTF;
                           binaryPayload := None;
                           jsonPayload := Some json |}
                  else inl (RuntimeError "Invalid tile content.")
              end
        end
    end.

End TileContent.

Arguments JsonNull {Number}.
Arguments JsonBoolean {Number} b.
Arguments JsonNumber {Number} n.
Arguments JsonString {Number} s.
Arguments JsonArray {Number} items.
Arguments JsonObject {Number} members.
Arguments ReadThrows {Number}.
Arguments ReadUndefined {Number}.
Arguments ReadValue {Number} v.
Arguments member {Number} name members.
Arguments getProperty {Number} json name.
Arguments definedValue {Number} read.
Arguments contentType {Number} _.
Arguments binaryPayload {Number} _.
Arguments jsonPayload {Number} _.
Arguments Build_PreprocessedContent {Number} _ _ _.
Arguments preproces3DTileContent {Number} getMagic isBinaryFormat
  EXTERNAL_TILESET GLTF getJsonFromTypedArray arrayBuffer.

(** Sample collaborators of [preproces3DTileContent]: the magic is the
    text of the first four bytes, the binary formats are the names the
    tiles use, and the parser knows three payloads. *)
Definition sampleMagic (bytes : list Byte.byte) : string :=
  string_of_list_byte (firstn 4 bytes).

Definition sampleIsBinaryFormat (contentType : string) : bool :=
  existsb (String.eqb contentType)
    ["b3dm"; "i3dm"; "pnts"; "cmpt"; "vctr"; "geom"; "subt"; "glb"].

Definition sampleTileset : @Json Z :=
  JsonObject [("asset", JsonObject [("version", JsonString "1.0")]);
              ("geometricError", JsonNumber 500)].

Definition sampleGltfJson : @Json Z :=
  JsonObject [("asset", JsonObject [("version", JsonString "2.0")]);
              ("geometricError", JsonNull)].

Definition sampleParse (bytes : list Byte.byte) : option (@Json Z) :=
  let text := string_of_list_byte bytes in
  if String.eqb text "null" then Some JsonNull
  else if String.eqb text "tileset" then Some sampleTileset
  else if String.eqb text "gltf-json" then Some sampleGltfJson
  else if String.eqb text "[]" then Some (JsonArray [])
  else None.

(** ** Packing an [EllipsoidGeometry] into an array

    [EllipsoidGeometry.pack] and [EllipsoidGeometry.unpack] move the
    description of an ellipsoid into and out of an array of numbers.
    Numbers are only stored, compared with [-1] and, in the constructor,
    rounded and compared with [3]: they are an abstract type with these
    operations.  An array is the finite map of its cells; a cell that
    was never written, or that holds [undefined], reads as [None]. *)

(** The interface of the values that pack themselves into an array
    ([Cartesian3] and [VertexFormat] here): [packedLength], [pack] and
    [unpack]. *)
Record Packable (Number T : Type) : Type := {
  packedLength : nat;
  packInto : T -> gmap nat Number -> nat -> gmap nat Number;
  unpackFrom : gmap nat Number -> nat -> T;
}.
Arguments packedLength {Number T} _.
Arguments packInto {Number T} _ _ _ _.
Arguments unpackFrom {Number T} _ _ _.

(** What is expected of such a value: [pack] writes the cells from
    [startingIndex] to [startingIndex + packedLength] and no other, and
    [unpack] reads the value back from these cells alone. *)
Definition PackableOk {Number T : Type} (p : Packable Number T) : Prop :=
  (forall value array startingIndex j,
     (j < startingIndex \/ startingIndex + packedLength p <= j)%nat ->
     packInto p value array startingIndex !! j = array !! j) /\
  (forall value array array' startingIndex,
     (forall j, (startingIndex <= j < startingIndex + packedLength p)%nat ->
                array' !! j = packInto p value array startingIndex !! j) ->
     unpackFrom p array' startingIndex = value).

(** [pack] writes every one of its cells: what they hold afterwards does
    not depend on what the array held before. *)
Definition PackableFills {Number T : Type} (p : Packable Number T) : Prop :=
  forall value array array' startingIndex j,
    (startingIndex <= j < startingIndex + packedLength p)%nat ->
    packInto p value array startingIndex !! j =
    packInto p value array' startingIndex !! j.

(** [array[index] = value], where the value may be [undefined]. *)
Definition setCell {Number : Type} (index : nat) (value : option Number)
  (array : gmap nat Number) : gmap nat Number :=
  match value with
  | Some n => <[index := n]> array
  | None => delete index array
  end.

Section EllipsoidGeometry.

Variable Number : Type.
Variable Cartesian3 : Type.
Variable VertexFormat : Type.

(** [Math.round], [x < 3] and [x === -1] on numbers, and the constants
    the code names. *)
Variable round : Number -> Number.
Variable lessThanThree : Number -> bool.
Variable isMinusOne : Number -> bool.
Variable zero : Number.
Variable sixtyFour : Number.
Variable minusOne : Number.
Variable PI : Number.
Variable TWO_PI : Number.

(** [Cartesian3] and [VertexFormat] with their packing, and the two
    default values the constructor names.  [clone] copies: on values it
    is the identity. *)
Variable Cartesian3_packable : Packable Number Cartesian3.
Variable VertexFormat_packable : Packable Number VertexFormat.
Variable defaultRadii : Cartesian3.
Variable VertexFormat_DEFAULT : VertexFormat.

(** [options] of the constructor *)
Record EllipsoidOptions : Type := {
  radii : option Cartesian3;
  innerRadii : option Cartesian3;
  minimumClock : option Number;
  maximumClock : option Number;
  minimumCone : option Number;
  maximumCone : option Number;
  stackPartitions : option Number;
  slicePartitions : option Number;
  vertexFormat : option VertexFormat;
  offsetAttribute : option Number;
}.

(** The fields of an [EllipsoidGeometry] object.  The constructor sets
    the six numbers to numbers; [unpack] into a given object sets them
    to whatever the array holds. *)
Record EllipsoidGeometry : Type := {
  _radii : Cartesian3;
  _innerRadii : Cartesian3;
  _minimumClock : option Number;
  _maximumClock : option Number;
  _minimumCone : option Number;
  _maximumCone : option Number;
  _stackPartitions : option Number;
  _slicePartitions : option Number;
  _vertexFormat : VertexFormat;
  _offsetAttribute : option Number;
  _workerName : string;
}.

(** [function EllipsoidGeometry(options)] *)
Definition newEllipsoidGeometry (options : EllipsoidOptions)
  : Exception + EllipsoidGeometry :=
  let radii' := defaultValue (radii options) defaultRadii in
  let innerRadii' := defaultValue (innerRadii options) radii' in
  let minimumClock' := defaultValue (minimumClock options) zero in
  let maximumClock' := defaultValue (maximumClock options) TWO_PI in
  let minimumCone' := defaultValue (minimumCone options) zero in
  let maximumCone' := defaultValue (maximumCone options) PI in
  let stackPartitions' :=
    round (defaultValue (stackPartitions options) sixtyFour) in
  let slicePartitions' :=
    round (defaultValue (slicePartitions options) sixtyFour) in
  let vertexFormat' := defaultValue (vertexFormat options) VertexFormat_DEFAULT in
  if lessThanThree slicePartitions' then
    inl (DeveloperError "options.slicePartitions cannot be less than three.")
  else if lessThanThree stackPartitions' then
    inl (DeveloperError "options.stackPartitions cannot be less than three.")
  else
    inr {| _radii := radii';
           _innerRadii := innerRadii';
           _minimumClock := Some minimumClock';
           _maximumClock := Some maximumClock';
           _minimumCone := Some minimumCone';
           _maximumCone := Some maximumCone';
           _stackPartitions := Some stackPartitions';
           _slicePartitions := Some slicePartitions';
           _vertexFormat := vertexFormat';
           _offsetAttribute := offsetAttribute options;
           _workerName := "createEllipsoidGeometry" |}.

(** [EllipsoidGeometry.packedLength] *)
Definition EllipsoidGeometry_packedLength : nat :=
  2 * packedLength Cartesian3_packable
  + packedLength VertexFormat_packable + 7.

(** [EllipsoidGeometry.pack = function(value, array, startingIndex)] *)
Definition pack (value : EllipsoidGeometry) (array : gmap nat Number)
  (startingIndex : option nat) : gmap nat Number :=
  let startingIndex := defaultValue startingIndex 0%nat in
  let array := packInto Cartesian3_packable (_radii value) array startingIndex in
  let startingIndex := (startingIndex + packedLength Cartesian3_packable)%nat in
  let array :=
    packInto Cartesian3_packable (_innerRadii value) array startingIndex in
  let startingIndex := (startingIndex + packedLength Cartesian3_packable)%nat in
  let array :=
    packInto VertexFormat_packable (_vertexFormat value) array startingIndex in
  let startingIndex := (startingIndex + packedLength VertexFormat_packable)%nat in
  let array := setCell startingIndex (_minimumClock value) array in
  let array := setCell (startingIndex + 1) (_maximumClock value) array in
  let array := setCell (startingIndex + 2) (_minimumCone value) array in
  let array := setCell (startingIndex + 3) (_maximumCone value) array in
  let array := setCell (startingIndex + 4) (_stackPartitions value) array in
  let array := setCell (startingIndex + 5) (_slicePartitions value) array in
  setCell (startingIndex + 6)
    (Some (defaultValue (_offsetAttribute value) minusOne)) array.

(** [offsetAttribute === -1 ? undefined : offsetAttribute] *)
Definition unpackedOffsetAttribute (offsetAttribute : option Number)
  : option Number :=
  match offsetAttribute with
  | Some n => if isMinusOne n then None else Some n
  | None => None
  end.

(** [EllipsoidGeometry.unpack = function(array, startingIndex, result)] *)
Definition unpack (array : gmap nat Number) (startingIndex : option nat)
  (result : option EllipsoidGeometry) : Exception + EllipsoidGeometry :=
  let startingIndex := defaultValue startingIndex 0%nat in
  let radii' := unpackFrom Cartesian3_packable array startingIndex in
  let startingIndex := (startingIndex + packedLength Cartesian3_packable)%nat in
  let innerRadii' := unpackFrom Cartesian3_packable array startingIndex in
  let startingIndex := (startingIndex + packedLength Cartesian3_packable)%nat in
  let vertexFormat' := unpackFrom VertexFormat_packable array startingIndex in
  let startingIndex := (startingIndex + packedLength VertexFormat_packable)%nat in
  let minimumClock' := array !! startingIndex in
  let maximumClock' := array !! (startingIndex + 1)%nat in
  let minimumCone' := array !! (startingIndex + 2)%nat in
  let maximumCone' := array !! (startingIndex + 3)%nat in
  let stackPartitions' := array !! (startingIndex + 4)%nat in
  let slicePartitions' := array !! (startingIndex + 5)%nat in
  let offsetAttribute' := array !! (startingIndex + 6)%nat in
  match result with
  | None =>
      newEllipsoidGeometry
        {| radii := Some radii';
           innerRadii := Some innerRadii';
           minimumClock := minimumClock';
           maximumClock := maximumClock';
           minimumCone := minimumCone';
           maximumCone := maximumCone';
           stackPartitions := stackPartitions';
           slicePartitions := slicePartitions';
           vertexFormat := Some vertexFormat';
           offsetAttribute := unpackedOffsetAttribute offsetAttribute' |}
  | Some result =>
      inr {| _radii := radii';
             _innerRadii := innerRadii';
             _minimumClock := minimumClock';
             _maximumClock := maximumClock';
             _minimumCone := minimumCone';
             _maximumCone := maximumCone';
             _stackPartitions := stackPartitions';
             _slicePartitions := slicePartitions';
             _vertexFormat := vertexFormat';
             _offsetAttribute := unpackedOffsetAttribute offsetAttribute';
             _workerName := _workerName result |}
  end.

(** What [unpack] gives back for a packed [value]: the value itself but
    for the offset attribute, where [-1] stands for [undefined]. *)
Definition unpacked (value : EllipsoidGeometry) (workerName : string)
  : EllipsoidGeometry :=
  {| _radii := _radii value;
     _innerRadii := _innerRadii value;
     _minimumClock := _minimumClock value;
     _maximumClock := _maximumClock value;
     _minimumCone := _minimumCone value;
     _maximumCone := _maximumCone value;
     _stackPartitions := _stackPartitions value;
     _slicePartitions := _slicePartitions value;
     _vertexFormat := _vertexFormat value;
     _offsetAttribute := unpackedOffsetAttribute
                           (Some (defaultValue (_offsetAttribute value) minusOne));
     _workerName := workerName |}.

(** [value] under another worker name. *)
Definition withWorkerName (value : EllipsoidGeometry) (workerName : string)
  : EllipsoidGeometry :=
  {| _radii := _radii value;
     _innerRadii := _innerRadii value;
     _minimumClock := _minimumClock value;
     _maximumClock := _maximumClock value;
     _minimumCone := _minimumCone value;
     _maximumCone := _maximumCone value;
     _stackPartitions := _stackPartitions value;
     _slicePartitions := _slicePartitions value;
     _vertexFormat := _vertexFormat value;
     _offsetAttribute := _offsetAttribute value;
     _workerName := workerName |}.

End EllipsoidGeometry.

(** Sample numbers and packable values: whole numbers, angles in
    thousandths of a radian, a [Cartesian3] of three numbers and a
    [VertexFormat] of six flags stored as 1 and 0. *)
Definition sampleCartesian3 : Packable Z (Z * Z * Z) :=
  {| packedLength := 3;
     packInto := fun '(x, y, z) array i =>
       <[(i + 2)%nat := z]> (<[(i + 1)%nat := y]> (<[i := x]> array));
     unpackFrom := fun array i =>
       (default 0 (array !! i), default 0 (array !! (i + 1)%nat),
        default 0 (array !! (i + 2)%nat)) |}.

Record SampleVertexFormat : Type := {
  position : bool;
  normal : bool;
  st : bool;
  tangent : bool;
  bitangent : bool;
  color : bool;
}.

Definition flagCell (flag : bool) : Z := if flag then 1 else 0.

Definition cellFlag (cell : option Z) : bool :=
  match cell with Some 1 => true | _ => false end.

Definition sampleVertexFormat : Packable Z SampleVertexFormat :=
  {| packedLength := 6;
     packInto := fun format array i =>
       <[(i + 5)%nat := flagCell (color format)]>
         (<[(i + 4)%nat := flagCell (bitangent format)]>
            (<[(i + 3)%nat := flagCell (tangent format)]>
               (<[(i + 2)%nat := flagCell (st format)]>
                  (<[(i + 1)%nat := flagCell (normal format)]>
                     (<[i := flagCell (position format)]> array)))));
     unpackFrom := fun array i =>
       {| position := cellFlag (array !! i);
          normal := cellFlag (array !! (i + 1)%nat);
          st := cellFlag (array !! (i + 2)%nat);
          tangent := cellFlag (array !! (i + 3)%nat);
          bitangent := cellFlag (array !! (i + 4)%nat);
          color := cellFlag (array !! (i + 5)%nat) |} |}.

Definition positionOnly : SampleVertexFormat :=
  {| position := true; normal := false; st := false; tangent := false;
     bitangent := false; color := false |}.

Definition positionAndNormal : SampleVertexFormat :=
  {| position := true; normal := true; st := false; tangent := false;
     bitangent := false; color := false |}.

Definition sampleEllipsoid (offset : option Z)
  : EllipsoidGeometry Z (Z * Z * Z) SampleVertexFormat :=
  {| _radii := (6378137, 6378137, 6356752);
     _innerRadii := (6378137, 6378137, 6356752);
     _minimumClock := Some 0;
     _maximumClock := Some 6283;
     _minimumCone := Some 0;
     _maximumCone := Some 3142;
     _stackPartitions := Some 64;
     _slicePartitions := Some 32;
     _vertexFormat := positionAndNormal;
     _offsetAttribute := offset;
     _workerName := "createEllipsoidGeometry" |}.

Definition sampleSphere : EllipsoidGeometry Z (Z * Z * Z) SampleVertexFormat :=
  {| _radii := (1, 1, 1);
     _innerRadii := (1, 1, 1);
     _minimumClock := Some 0;
     _maximumClock := Some 6283;
     _minimumCone := Some 0;
     _maximumCone := Some 3142;
     _stackPartitions := Some 8;
     _slicePartitions := Some 8;
     _vertexFormat := positionOnly;
     _offsetAttribute := Some 2;
     _workerName := "createEllipsoidGeometry" |}.

(** ** The unit ellipsoid

    [EllipsoidGeometry.getUnitEllipsoid] keeps what [createGeometry]
    returned for the unit ellipsoid in the variable
    [unitEllipsoidGeometry].  [createGeometry] is numeric code; here it
    is the value it returns for that one input, a geometry or
    [undefined], and a count of the calls made to it. *)

Section UnitEllipsoid.

Variable Geometry : Type.
Variable createUnitGeometry : option Geometry.

Record UnitEllipsoidState : Type := {
  unitEllipsoidGeometry : option Geometry;
  createGeometryCalls : nat;
}.

(** [EllipsoidGeometry.getUnitEllipsoid = function()] *)
Definition getUnitEllipsoid (s : UnitEllipsoidState)
  : option Geometry * UnitEllipsoidState :=
  if defined (unitEllipsoidGeometry s) then (unitEllipsoidGeometry s, s)
  else
    let created := createUnitGeometry in
    (created, {| unitEllipsoidGeometry := created;
                 createGeometryCalls := S (createGeometryCalls s) |}).

(** [n] calls in a row: what each returned, and the state after them. *)
Fixpoint getUnitEllipsoidTimes (n : nat) (s : UnitEllipsoidState)
  : list (option Geometry) * UnitEllipsoidState :=
  match n with
  | O => ([], s)
  | S n' =>
      let '(g, s') := getUnitEllipsoid s in
      let '(gs, s'') := getUnitEllipsoidTimes n' s' in
      (g :: gs, s'')
  end.

End UnitEllipsoid.

Arguments unitEllipsoidGeometry {Geometry} _.
Arguments createGeometryCalls {Geometry} _.
Arguments Build_UnitEllipsoidState {Geometry} _ _.
Arguments getUnitEllipsoid {Geometry} createUnitGeometry s.
Arguments getUnitEllipsoidTimes {Geometry} createUnitGeometry n s.

(** ** The cache *)

Section ResourceCache.

(** The verdict of [Check.typeOf.string] on a value that is a string;
    the functions below are written against any such check. *)
Variable typeOfString : string -> bool.

(** The descriptor of an external buffer and the key derived from it
    ([ResourceCacheKey.getExternalBufferCacheKey], an external pure
    function). *)
Variable Resource : Type.
Variable getExternalBufferCacheKey : Resource -> string.

(** [Check.typeOf.string(name, test)] *)
Definition Check_typeOf_string (name : string) (test : string) : Js unit :=
  if typeOfString test then ret tt else throw (CheckFailed name).

(** [ResourceCache.get = function (cacheKey)] *)
Definition get (key : string) : Js (option ResourceLoader) :=
  let* _ := Check_typeOf_string "cacheKey" key in
  let* cacheEntry := readEntry key in
  match cacheEntry with
  | Some entry =>
      let* _ := writeEntry key
                  (setReferenceCount entry (referenceCount entry + 1)) in
      ret (Some (resourceLoader entry))
  | None => ret None
  end.

(** [ResourceCache.load = function (options)].
    [Check.typeOf.object] on the loader cannot fail: the argument is a
    loader object by its type. *)
Definition load (options : LoadOptions) : Js unit :=
  let loader := load_resourceLoader options in
  let resident := defaultValue (load_keepResident options) false in
  let key := cacheKey loader in
  let* _ := Check_typeOf_string "options.resourceLoader.cacheKey" key in
  let* present := readEntry key in
  if defined present then
    throw (DeveloperError
             ("Resource with this cacheKey is already in the cache: " +:+ key))
  else
    let* _ := writeEntry key (newCacheEntry loader (Some resident)) in
    invoke (LoadCalled loader).

(** [ResourceCache.unload = function (resourceLoader)] *)
Definition unload (loader : ResourceLoader) : Js unit :=
  let key := cacheKey loader in
  let* cacheEntry := readEntry key in
  match cacheEntry with
  | None => throw (DeveloperError ("Resource is not in the cache: " +:+ key))
  | Some entry =>
      if referenceCount entry =? 0 then
        throw (DeveloperError "Cannot unload resource that has no references.")
      else
        let entry' := setReferenceCount entry (referenceCount entry - 1) in
        let* _ := writeEntry key entry' in
        if (referenceCount entry' =? 0) && negb (keepResident entry') then
          let* _ := invoke (DestroyCalled loader) in
          deleteEntry key
        else ret tt
  end.

(** [options] of [ResourceCache.loadExternalBuffer] *)
Record ExternalBufferOptions : Type := {
  buffer_resource : Resource;
  buffer_keepResident : option bool;
}.

(** [ResourceCache.loadExternalBuffer = function (options)].
    [Check.typeOf.object] on [options.resource] cannot fail: the
    descriptor is a [Resource] by its type. *)
Definition loadExternalBuffer (options : ExternalBufferOptions)
  : Js ResourceLoader :=
  let resident := defaultValue (buffer_keepResident options) false in
  let key := getExternalBufferCacheKey (buffer_resource options) in
  let* bufferLoader := get key in
  match bufferLoader with
  | Some found => ret found
  | None =>
      let* created := newLoader key in
      let* _ := load {| load_resourceLoader := created;
                        load_keepResident := Some resident |} in
      ret created
  end.

(** The body of the [for ... in] loop of [clearForSpecs]; the
    [hasOwnProperty] test holds for the keys that are still entries. *)
Definition clearEntry (key : string) : Js unit :=
  let* cacheEntry := readEntry key in
  match cacheEntry with
  | Some entry =>
      let* _ := invoke (DestroyCalled (resourceLoader entry)) in
      deleteEntry key
  | None => ret tt
  end.

(** [ResourceCache.clearForSpecs = function ()].  The loop visits the
    keys the registry holds when it starts, each once; they are taken in
    the order of [map_to_list], the order of [for ... in] not being
    modelled. *)
Definition clearForSpecs : Js unit :=
  fun r => forEach (map fst (map_to_list (cacheEntries r))) clearEntry r.


(** *** Consumers *)

(** One call of a consumer on the cache. *)
Inductive Request : Type :=
| CallGet (key : string)
| CallLoad (options : LoadOptions)
| CallUnload (loader : ResourceLoader).

(** The realm after a request, whether it returned or threw (a consumer
    may catch the error and go on). *)
Definition perform (q : Request) (r : Realm) : Realm :=
  match q with
  | CallGet key => realmOf (get key r)
  | CallLoad options => realmOf (load options r)
  | CallUnload loader => realmOf (unload loader r)
  end.

Definition performAll (qs : list Request) (r : Realm) : Realm :=
  fold_left (fun r' q => perform q r') qs r.

(** *** The registry invariant *)

(** Every entry is filed under the [cacheKey] of its own loader: [load]
    is the only function that adds an entry, and it files the loader
    under [resourceLoader.cacheKey]. *)
Definition registryOk (entries : gmap string CacheEntry) : Prop :=
  forall key entry,
    entries !! key = Some entry -> cacheKey (resourceLoader entry) = key.

(** The loader objects held by the registry. *)
Definition cached (entries : gmap string CacheEntry) (l : ResourceLoader) : Prop :=
  exists key entry, entries !! key = Some entry /\ resourceLoader entry = l.

(** The realm with another registry and some more calls logged. *)
Definition withEntries (r : Realm) (entries : gmap string CacheEntry)
  (made : list Call) : Realm :=
  {| cacheEntries := entries;
     calls := calls r ++ made;
     nextObjectId := nextObjectId r |}.

(** *** The other typed constructors *)

(** The descriptors of the other resource kinds, opaque to the cache, and
    the key derived for each kind (the functions of [ResourceCacheKey],
    external and pure).  The numeric ids are indices.  The calls of
    [Check.typeOf.object] and [Check.typeOf.number] on the descriptors
    that the options must carry cannot fail: the options carry them by
    their types. *)
Variable Schema : Type.
Variable Gltf : Type.
Variable Draco : Type.
Variable TextureInfo : Type.
Variable TypedArray : Type.

(** [options.supportedImageFormats]: four flags, each possibly missing. *)
Record SupportedImageFormats : Type := {
  webp : option bool;
  s3tc : option bool;
  pvrtc : option bool;
  etc1 : option bool;
}.

(** [defaultValue.EMPTY_OBJECT] read as image formats: no flag. *)
Definition EMPTY_FORMATS : SupportedImageFormats :=
  {| webp := None; s3tc := None; pvrtc := None; etc1 := None |}.

Variable getSchemaCacheKey : option Schema -> option Resource -> string.
Variable getEmbeddedBufferCacheKey : Resource -> Z -> string.
Variable getGltfCacheKey : Resource -> string.
Variable getBufferViewCacheKey : Gltf -> Z -> Resource -> Resource -> string.
Variable getDracoCacheKey : Gltf -> Draco -> Resource -> Resource -> string.
Variable getVertexBufferCacheKey :
  Gltf -> Resource -> Resource -> option Z -> option Draco -> option string ->
  string.
Variable getIndexBufferCacheKey :
  Gltf -> Z -> Resource -> Resource -> option Draco -> string.
Variable getImageCacheKey : Gltf -> Z -> Resource -> Resource -> string.
Variable getTextureCacheKey :
  Gltf -> TextureInfo -> Resource -> Resource -> SupportedImageFormats -> string.

(** The verdicts of [Check.typeOf.object], [Check.typeOf.string] and
    [Check.typeOf.boolean] when the tested value is [undefined]. *)
Variable typeOfObjectUndefined : bool.
Variable typeOfStringUndefined : bool.
Variable typeOfBooleanUndefined : bool.

(** The outcome of the call [Check.typeOf.boolean(name, test)] when the
    tested value is a boolean.  [loadImage] and [loadTexture] are the only
    callers, and Core/Check.js is not among the sources: where [Check]
    names its test of booleans otherwise ([Check.typeOf.bool]) and has no
    member [typeOf.boolean], the call itself throws, whatever is tested,
    and both this verdict and [typeOfBooleanUndefined] are [false]. *)
Variable typeOfBooleanValue : bool.

(** The text of a Draco extension object where a check expects the name
    of what it tests. *)
Variable dracoAsName : Draco -> string.

(** A check whose tested value is [undefined]. *)
Definition Check_undefined (verdict : bool) (name : string) : Js unit :=
  if verdict then ret tt else throw (CheckFailed name).

(** The call [Check.typeOf.boolean(name, test)]: it returns or throws by
    the verdict for the kind of value tested.  A throw of the call is
    recorded as [CheckFailed name], also where it comes from the call of
    a missing member and not from inside a check. *)
Definition Check_typeOf_boolean (name : string) (test : option bool) : Js unit :=
  match test with
  | Some _ => Check_undefined typeOfBooleanValue name
  | None => Check_undefined typeOfBooleanUndefined name
  end.

(** [options] of [ResourceCache.loadSchema] *)
Record SchemaOptions : Type := {
  schema_schema : option Schema;
  schema_resource : option Resource;
  schema_keepResident : option bool;
}.

(** [ResourceCache.loadSchema = function (options)] *)
Definition loadSchema (options : SchemaOptions) : Js ResourceLoader :=
  let schema := schema_schema options in
  let resource := schema_resource options in
  let resident := defaultValue (schema_keepResident options) false in
  if Bool.eqb (defined schema) (defined resource) then
    throw (DeveloperError
             "One of options.schema and options.resource must be defined.")
  else
    let key := getSchemaCacheKey schema resource in
    let* schemaLoader := get key in
    match schemaLoader with
    | Some found => ret found
    | None =>
        let* created := newLoader key in
        let* _ := load {| load_resourceLoader := created;
                          load_keepResident := Some resident |} in
        ret created
    end.

(** [options] of [ResourceCache.loadEmbeddedBuffer] *)
Record EmbeddedBufferOptions : Type := {
  embedded_parentResource : Resource;
  embedded_bufferId : Z;
  embedded_typedArray : TypedArray;
  embedded_keepResident : option bool;
}.

(** [ResourceCache.loadEmbeddedBuffer = function (options)] *)
Definition loadEmbeddedBuffer (options : EmbeddedBufferOptions)
  : Js ResourceLoader :=
  let resident := defaultValue (embedded_keepResident options) false in
  let key := getEmbeddedBufferCacheKey (embedded_parentResource options)
               (embedded_bufferId options) in
  let* bufferLoader := get key in
  match bufferLoader with
  | Some found => ret found
  | None =>
      let* created := newLoader key in
      let* _ := load {| load_resourceLoader := created;
                        load_keepResident := Some resident |} in
      ret created
  end.

(** [options] of [ResourceCache.loadGltf] *)
Record GltfOptions : Type := {
  gltf_gltfResource : Resource;
  gltf_baseResource : Resource;
  gltf_keepResident : option bool;
}.

(** [ResourceCache.loadGltf = function (options)] *)
Definition loadGltf (options : GltfOptions) : Js ResourceLoader :=
  let resident := defaultValue (gltf_keepResident options) false in
  let key := getGltfCacheKey (gltf_gltfResource options) in
  let* gltfJsonLoader := get key in
  match gltfJsonLoader with
  | Some found => ret found
  | None =>
      let* created := newLoader key in
      let* _ := load {| load_resourceLoader := created;
                        load_keepResident := Some resident |} in
      ret created
  end.

(** [options] of [ResourceCache.loadBufferView] *)
Record BufferViewOptions : Type := {
  view_gltf : Gltf;
  view_bufferViewId : Z;
  view_gltfResource : Resource;
  view_baseResource : Resource;
  view_keepResident : option bool;
}.

(** [ResourceCache.loadBufferView = function (options)] *)
Definition loadBufferView (options : BufferViewOptions) : Js ResourceLoader :=
  let resident := defaultValue (view_keepResident options) false in
  let key := getBufferViewCacheKey (view_gltf options)
               (view_bufferViewId options) (view_gltfResource options)
               (view_baseResource options) in
  let* bufferViewLoader := get key in
  match bufferViewLoader with
  | Some found => ret found
  | None =>
      let* created := newLoader key in
      let* _ := load {| load_resourceLoader := created;
                        load_keepResident := Some resident |} in
      ret created
  end.

(** [options] of [ResourceCache.loadDraco] *)
Record DracoOptions : Type := {
  draco_gltf : Gltf;
  draco_draco : Draco;
  draco_gltfResource : Resource;
  draco_baseResource : Resource;
  draco_keepResident : option bool;
}.

(** [ResourceCache.loadDraco = function (options)] *)
Definition loadDraco (options : DracoOptions) : Js ResourceLoader :=
  let resident := defaultValue (draco_keepResident options) false in
  let key := getDracoCacheKey (draco_gltf options) (draco_draco options)
               (draco_gltfResource options) (draco_baseResource options) in
  let* dracoLoader := get key in
  match dracoLoader with
  | Some found => ret found
  | None =>
      let* created := newLoader key in
      let* _ := load {| load_resourceLoader := created;
                        load_keepResident := Some resident |} in
      ret created
  end.

(** [dracoAttributeSemantic] where a check expects the name of what it
    tests. *)
Definition semanticAsName (semantic : option string) : string :=
  match semantic with Some s => s | None => "undefined" end.

(** [options] of [ResourceCache.loadVertexBuffer] *)
Record VertexBufferOptions : Type := {
  vertex_gltf : Gltf;
  vertex_gltfResource : Resource;
  vertex_baseResource : Resource;
  vertex_bufferViewId : option Z;
  vertex_draco : option Draco;
  vertex_dracoAttributeSemantic : option string;
  vertex_keepResident : option bool;
  vertex_asynchronous : option bool;
}.

(** [ResourceCache.loadVertexBuffer = function (options)].  Under
    [hasDraco] the two checks are called with one argument each, the
    value where the name is expected: the tested value is [undefined]. *)
Definition loadVertexBuffer (options : VertexBufferOptions)
  : Js ResourceLoader :=
  let bufferViewId := vertex_bufferViewId options in
  let draco := vertex_draco options in
  let dracoAttributeSemantic := vertex_dracoAttributeSemantic options in
  let resident := defaultValue (vertex_keepResident options) false in
  let hasBufferViewId := defined bufferViewId in
  let hasDraco := defined draco in
  let hasDracoAttributeSemantic := defined dracoAttributeSemantic in
  if Bool.eqb hasBufferViewId hasDraco then
    throw (DeveloperError
             "One of options.bufferViewId and options.draco must be defined.")
  else if hasDraco && negb hasDracoAttributeSemantic then
    throw (DeveloperError
             "When options.draco is defined options.dracoAttributeSemantic must also be defined.")
  else
    let* _ :=
      match draco with
      | Some d =>
          let* _ := Check_undefined typeOfObjectUndefined (dracoAsName d) in
          Check_undefined typeOfStringUndefined
            (semanticAsName dracoAttributeSemantic)
      | None => ret tt
      end in
    let key := getVertexBufferCacheKey (vertex_gltf options)
                 (vertex_gltfResource options) (vertex_baseResource options)
                 bufferViewId draco dracoAttributeSemantic in
    let* vertexBufferLoader := get key in
    match vertexBufferLoader with
    | Some found => ret found
    | None =>
        let* created := newLoader key in
        let* _ := load {| load_resourceLoader := created;
                          load_keepResident := Some resident |} in
        ret created
    end.

(** [options] of [ResourceCache.loadIndexBuffer] *)
Record IndexBufferOptions : Type := {
  index_gltf : Gltf;
  index_accessorId : Z;
  index_gltfResource : Resource;
  index_baseResource : Resource;
  index_draco : option Draco;
  index_keepResident : option bool;
  index_asynchronous : option bool;
}.

(** [ResourceCache.loadIndexBuffer = function (options)] *)
Definition loadIndexBuffer (options : IndexBufferOptions) : Js ResourceLoader :=
  let resident := defaultValue (index_keepResident options) false in
  let key := getIndexBufferCacheKey (index_gltf options)
               (index_accessorId options) (index_gltfResource options)
               (index_baseResource options) (index_draco options) in
  let* indexBufferLoader := get key in
  match indexBufferLoader with
  | Some found => ret found
  | None =>
      let* created := newLoader key in
      let* _ := load {| load_resourceLoader := created;
                        load_keepResident := Some resident |} in
      ret created
  end.

(** The four checks of [loadImage] and [loadTexture] on the flags of
    [supportedImageFormats], in the order of the source. *)
Definition checkSupportedImageFormats (formats : SupportedImageFormats)
  : Js unit :=
  let* _ := Check_typeOf_boolean "options.supportedImageFormats.webp"
              (webp formats) in
  let* _ := Check_typeOf_boolean "options.supportedImageFormats.s3tc"
              (s3tc formats) in
  let* _ := Check_typeOf_boolean "options.supportedImageFormats.pvrtc"
              (pvrtc formats) in
  Check_typeOf_boolean "options.supportedImageFormats.etc1" (etc1 formats).

(** [options] of [ResourceCache.loadImage] *)
Record ImageOptions : Type := {
  image_gltf : Gltf;
  image_imageId : Z;
  image_gltfResource : Resource;
  image_baseResource : Resource;
  image_supportedImageFormats : option SupportedImageFormats;
  image_keepResident : option bool;
}.

(** [ResourceCache.loadImage = function (options)] *)
Definition loadImage (options : ImageOptions) : Js ResourceLoader :=
  let supportedImageFormats :=
    defaultValue (image_supportedImageFormats options) EMPTY_FORMATS in
  let resident := defaultValue (image_keepResident options) false in
  let* _ := checkSupportedImageFormats supportedImageFormats in
  let key := getImageCacheKey (image_gltf options) (image_imageId options)
               (image_gltfResource options) (image_baseResource options) in
  let* imageLoader := get key in
  match imageLoader with
  | Some found => ret found
  | None =>
      let* created := newLoader key in
      let* _ := load {| load_resourceLoader := created;
                        load_keepResident := Some resident |} in
      ret created
  end.

(** [options] of [ResourceCache.loadTexture] *)
Record TextureOptions : Type := {
  texture_gltf : Gltf;
  texture_textureInfo : TextureInfo;
  texture_gltfResource : Resource;
  texture_baseResource : Resource;
  texture_supportedImageFormats : option SupportedImageFormats;
  texture_keepResident : option bool;
  texture_asynchronous : option bool;
}.

(** [ResourceCache.loadTexture = function (options)] *)
Definition loadTexture (options : TextureOptions) : Js ResourceLoader :=
  let supportedImageFormats :=
    defaultValue (texture_supportedImageFormats options) EMPTY_FORMATS in
  let resident := defaultValue (texture_keepResident options) false in
  let* _ := checkSupportedImageFormats supportedImageFormats in
  let key := getTextureCacheKey (texture_gltf options)
               (texture_textureInfo options) (texture_gltfResource options)
               (texture_baseResource options) supportedImageFormats in
  let* textureLoader := get key in
  match textureLoader with
  | Some found => ret found
  | None =>
      let* created := newLoader key in
      let* _ := load {| load_resourceLoader := created;
                        load_keepResident := Some resident |} in
      ret created
  end.

(** *** Requests to the typed constructors *)

(** One call of a consumer on a typed constructor. *)
Inductive TypedRequest : Type :=
| RequestSchema (options : SchemaOptions)
| RequestEmbeddedBuffer (options : EmbeddedBufferOptions)
| RequestExternalBuffer (options : ExternalBufferOptions)
| RequestGltf (options : GltfOptions)
| RequestBufferView (options : BufferViewOptions)
| RequestDraco (options : DracoOptions)
| RequestVertexBuffer (options : VertexBufferOptions)
| RequestIndexBuffer (options : IndexBufferOptions)
| RequestImage (options : ImageOptions)
| RequestTexture (options : TextureOptions).

Definition loadTyped (q : TypedRequest) : Js ResourceLoader :=
  match q with
  | RequestSchema options => loadSchema options
  | RequestEmbeddedBuffer options => loadEmbeddedBuffer options
  | RequestExternalBuffer options => loadExternalBuffer options
  | RequestGltf options => loadGltf options
  | RequestBufferView options => loadBufferView options
  | RequestDraco options => loadDraco options
  | RequestVertexBuffer options => loadVertexBuffer options
  | RequestIndexBuffer options => loadIndexBuffer options
  | RequestImage options => loadImage options
  | RequestTexture options => loadTexture options
  end.

(** The key a typed constructor derives from its options. *)
Definition typedKey (q : TypedRequest) : string :=
  match q with
  | RequestSchema o => getSchemaCacheKey (schema_schema o) (schema_resource o)
  | RequestEmbeddedBuffer o =>
      getEmbeddedBufferCacheKey (embedded_parentResource o)
        (embedded_bufferId o)
  | RequestExternalBuffer o => getExternalBufferCacheKey (buffer_resource o)
  | RequestGltf o => getGltfCacheKey (gltf_gltfResource o)
  | RequestBufferView o =>
      getBufferViewCacheKey (view_gltf o) (view_bufferViewId o)
        (view_gltfResource o) (view_baseResource o)
  | RequestDraco o =>
      getDracoCacheKey (draco_gltf o) (draco_draco o) (draco_gltfResource o)
        (draco_baseResource o)
  | RequestVertexBuffer o =>
      getVertexBufferCacheKey (vertex_gltf o) (vertex_gltfResource o)
        (vertex_baseResource o) (vertex_bufferViewId o) (vertex_draco o)
        (vertex_dracoAttributeSemantic o)
  | RequestIndexBuffer o =>
      getIndexBufferCacheKey (index_gltf o) (index_accessorId o)
        (index_gltfResource o) (index_baseResource o) (index_draco o)
  | RequestImage o =>
      getImageCacheKey (image_gltf o) (image_imageId o) (image_gltfResource o)
        (image_baseResource o)
  | RequestTexture o =>
      getTextureCacheKey (texture_gltf o) (texture_textureInfo o)
        (texture_gltfResource o) (texture_baseResource o)
        (defaultValue (texture_supportedImageFormats o) EMPTY_FORMATS)
  end.

(** [defaultValue(options.keepResident, false)] of a typed request. *)
Definition typedResident (q : TypedRequest) : bool :=
  defaultValue
    match q with
    | RequestSchema o => schema_keepResident o
    | RequestEmbeddedBuffer o => embedded_keepResident o
    | RequestExternalBuffer o => buffer_keepResident o
    | RequestGltf o => gltf_keepResident o
    | RequestBufferView o => view_keepResident o
    | RequestDraco o => draco_keepResident o
    | RequestVertexBuffer o => vertex_keepResident o
    | RequestIndexBuffer o => index_keepResident o
    | RequestImage o => image_keepResident o
    | RequestTexture o => texture_keepResident o
    end false.

(** What a typed constructor tests of its options before it derives the
    key: the statements of each function up to the key derivation. *)
Definition validation (q : TypedRequest) : Js unit :=
  match q with
  | RequestSchema o =>
      if Bool.eqb (defined (schema_schema o)) (defined (schema_resource o)) then
        throw (DeveloperError
                 "One of options.schema and options.resource must be defined.")
      else ret tt
  | RequestVertexBuffer o =>
      if Bool.eqb (defined (vertex_bufferViewId o)) (defined (vertex_draco o))
      then
        throw (DeveloperError
                 "One of options.bufferViewId and options.draco must be defined.")
      else if defined (vertex_draco o)
              && negb (defined (vertex_dracoAttributeSemantic o)) then
        throw (DeveloperError
                 "When options.draco is defined options.dracoAttributeSemantic must also be defined.")
      else
        match vertex_draco o with
        | Some d =>
            let* _ := Check_undefined typeOfObjectUndefined (dracoAsName d) in
            Check_undefined typeOfStringUndefined
              (semanticAsName (vertex_dracoAttributeSemantic o))
        | None => ret tt
        end
  | RequestImage o =>
      checkSupportedImageFormats
        (defaultValue (image_supportedImageFormats o) EMPTY_FORMATS)
  | RequestTexture o =>
      checkSupportedImageFormats
        (defaultValue (texture_supportedImageFormats o) EMPTY_FORMATS)
  | _ => ret tt
  end.

(** The statements every typed constructor ends with, from
    [ResourceCache.get(cacheKey)] on. *)
Definition getOrLoad (key : string) (resident : bool) : Js ResourceLoader :=
  let* found := get key in
  match found with
  | Some loader => ret loader
  | None =>
      let* created := newLoader key in
      let* _ := load {| load_resourceLoader := created;
                        load_keepResident := Some resident |} in
      ret created
  end.

(** Anything a consumer can do with the cache. *)
Inductive Action : Type :=
| Basic (q : Request)
| Typed (q : TypedRequest)
| ClearForSpecs.

Definition act (a : Action) (r : Realm) : Realm :=
  match a with
  | Basic q => perform q r
  | Typed q => realmOf (loadTyped q r)
  | ClearForSpecs => realmOf (clearForSpecs r)
  end.

Definition actAll (actions : list Action) (r : Realm) : Realm :=
  fold_left (fun r' a => act a r') actions r.

(** The counts of the entries: never negative, and at least one
    reference on every entry that is not resident. *)
Definition countsOk (entries : gmap string CacheEntry) : Prop :=
  forall key entry,
    entries !! key = Some entry ->
    0 <= referenceCount entry /\
    (keepResident entry = false -> 1 <= referenceCount entry).

(** What [get], [load] and the typed constructors have in common: they
    only add. *)
Definition onlyAdds (r r' : Realm) : Prop :=
  (exists made, calls r' = calls r ++ made /\
                forall l, DestroyCalled l ∉ made) /\
  (forall key entry,
     cacheEntries r !! key = Some entry ->
     exists entry',
       cacheEntries r' !! key = Some entry' /\
       resourceLoader entry' = resourceLoader entry /\
       keepResident entry' = keepResident entry /\
       referenceCount entry <= referenceCount entry').

(** *** Sample key derivers

    Stand-ins for the functions of [ResourceCacheKey], on descriptors
    that are the names of the resources. *)

Definition idText (id : Z) : string :=
  match id with
  | 0 => "0" | 1 => "1" | 2 => "2" | 3 => "3" | _ => "n"
  end.

Definition sampleSchemaKey (schema resource : option string) : string :=
  match schema with
  | Some s => "embedded-schema:" +:+ s
  | None => "external-schema:" +:+ defaultValue resource ""
  end.

Definition sampleEmbeddedBufferKey (parentResource : string) (bufferId : Z)
  : string :=
  "embedded-buffer:" +:+ parentResource +:+ "-buffer-id-" +:+ idText bufferId.

Definition sampleGltfKey (gltfResource : string) : string :=
  "gltf:" +:+ gltfResource.

Definition sampleBufferViewKey (gltf : string) (bufferViewId : Z)
  (gltfResource baseResource : string) : string :=
  "buffer-view:" +:+ gltfResource +:+ "-" +:+ idText bufferViewId.

Definition sampleDracoKey (gltf draco gltfResource baseResource : string)
  : string :=
  "draco:" +:+ gltfResource +:+ "-" +:+ draco.

Definition sampleVertexBufferKey (gltf gltfResource baseResource : string)
  (bufferViewId : option Z) (draco dracoAttributeSemantic : option string)
  : string :=
  match draco, dracoAttributeSemantic with
  | Some d, Some semantic =>
      "vertex-buffer:" +:+ gltfResource +:+ "-draco-" +:+ d +:+ "-" +:+ semantic
  | _, _ =>
      "vertex-buffer:" +:+ gltfResource +:+ "-buffer-view-"
        +:+ idText (defaultValue bufferViewId 0)
  end.

Definition sampleIndexBufferKey (gltf : string) (accessorId : Z)
  (gltfResource baseResource : string) (draco : option string) : string :=
  "index-buffer:" +:+ gltfResource +:+ "-accessor-" +:+ idText accessorId.

Definition sampleImageKey (gltf : string) (imageId : Z)
  (gltfResource baseResource : string) : string :=
  "image:" +:+ gltfResource +:+ "-" +:+ idText imageId.

Definition sampleTextureKey (gltf textureInfo gltfResource baseResource : string)
  (formats : SupportedImageFormats) : string :=
  "texture:" +:+ gltfResource +:+ "-" +:+ textureInfo
    +:+ (if defaultValue (webp formats) false then "-webp" else "").

Definition allFormats : SupportedImageFormats :=
  {| webp := Some true; s3tc := Some true; pvrtc := Some false;
     etc1 := Some false |}.

(** *** Loaders that release their dependencies

    Modelled from the spec: [destroy()] of a loader (the loader classes
    are not among the sources).  A loader "may itself be a consumer": it
    acquires dependency entries from the cache while loading, "and it must
    release each such dependency via [unload] during its own
    [destroy()]", "before [destroy()] returns".  [dependencies l] are the
    loaders that [l] acquired; [l.destroy()] is logged and then calls
    [ResourceCache.unload] on each of them.

    [unload] and [clearForSpecs] are embedded once more below, statement
    by statement, with such a [destroy()] where [invoke] only logs the
    call, and with the registry as the object it is: its properties in the
    order of [for ... in]. *)
Variable dependencies : ResourceLoader -> list ResourceLoader.

(** [ResourceCache.cacheEntries] with its own properties in the order in
    which [for ... in] enumerates them, which is the order in which they
    were added (cache keys are not array indices), and the log of the
    calls made on loader objects. *)
Record OrderedRealm : Type := {
  entriesInOrder : list (string * CacheEntry);
  callsMade : list Call;
}.

(** How a call ends.  [OutOfFuel]: the calls of [unload] made from within
    [destroy()] are nested deeper than the bound given to the model. *)
Inductive Outcome : Type :=
| Returned (s : OrderedRealm)
| Threw (e : Exception) (s : OrderedRealm)
| OutOfFuel.

(** [cacheEntries[key]] *)
Fixpoint property (key : string) (entries : list (string * CacheEntry))
  : option CacheEntry :=
  match entries with
  | [] => None
  | (k, entry) :: rest =>
      if String.eqb k key then Some entry else property key rest
  end.

(** A write to the entry stored under [key]: a property that exists keeps
    its place, a new one is added last. *)
Fixpoint setProperty (key : string) (entry : CacheEntry)
  (entries : list (string * CacheEntry)) : list (string * CacheEntry) :=
  match entries with
  | [] => [(key, entry)]
  | (k, old) :: rest =>
      if String.eqb k key then (k, entry) :: rest
      else (k, old) :: setProperty key entry rest
  end.

(** [delete cacheEntries[key]] *)
Fixpoint deleteProperty (key : string) (entries : list (string * CacheEntry))
  : list (string * CacheEntry) :=
  match entries with
  | [] => []
  | (k, entry) :: rest =>
      if String.eqb k key then deleteProperty key rest
      else (k, entry) :: deleteProperty key rest
  end.

Definition written (key : string) (entry : CacheEntry) (s : OrderedRealm)
  : OrderedRealm :=
  {| entriesInOrder := setProperty key entry (entriesInOrder s);
     callsMade := callsMade s |}.

Definition deleted (key : string) (s : OrderedRealm) : OrderedRealm :=
  {| entriesInOrder := deleteProperty key (entriesInOrder s);
     callsMade := callsMade s |}.

Definition logged (c : Call) (s : OrderedRealm) : OrderedRealm :=
  {| entriesInOrder := entriesInOrder s;
     callsMade := callsMade s ++ [c] |}.

(** The calls [release(l)] for the loaders of a list, in order, up to the
    first one that does not return. *)
Fixpoint releaseEach (release : ResourceLoader -> OrderedRealm -> Outcome)
  (loaders : list ResourceLoader) (s : OrderedRealm) : Outcome :=
  match loaders with
  | [] => Returned s
  | l :: rest =>
      match release l s with
      | Returned s' => releaseEach release rest s'
      | other => other
      end
  end.

(** [ResourceCache.unload = function (resourceLoader)], where
    [resourceLoader.destroy()] unloads the dependencies of the loader:
    the call is logged, then [unload] is called on each dependency, with
    the entry of [resourceLoader] still in the registry; the [delete]
    follows when [destroy()] has returned.  [fuel] bounds the depth of the
    nested calls of [unload]. *)
Fixpoint unloadWith (fuel : nat) (loader : ResourceLoader) (s : OrderedRealm)
  : Outcome :=
  match fuel with
  | O => OutOfFuel
  | S fuel' =>
      let key := cacheKey loader in
      match property key (entriesInOrder s) with
      | None =>
          Threw (DeveloperError ("Resource is not in the cache: " +:+ key)) s
      | Some entry =>
          if referenceCount entry =? 0 then
            Threw (DeveloperError
                     "Cannot unload resource that has no references.") s
          else
            let entry' := setReferenceCount entry (referenceCount entry - 1) in
            let s1 := written key entry' s in
            if (referenceCount entry' =? 0) && negb (keepResident entry') then
              match releaseEach (unloadWith fuel') (dependencies loader)
                      (logged (DestroyCalled loader) s1) with
              | Returned s2 => Returned (deleted key s2)
              | other => other
              end
            else Returned s1
      end
  end.

(** [loader.destroy()], at a depth where [fuel] nested calls of [unload]
    are left. *)
Definition destroyWith (fuel : nat) (loader : ResourceLoader)
  (s : OrderedRealm) : Outcome :=
  releaseEach (unloadWith fuel) (dependencies loader)
    (logged (DestroyCalled loader) s).

(** The [for ... in] loop of [clearForSpecs] over the keys enumerated when
    it starts.  A key deleted before its turn is not visited; for a key
    that is visited, [cacheEntry.resourceLoader.destroy()] precedes the
    [delete], and an exception thrown from within [destroy()] ends the
    loop. *)
Fixpoint clearEach (fuel : nat) (keys : list string) (s : OrderedRealm)
  : Outcome :=
  match keys with
  | [] => Returned s
  | key :: rest =>
      match property key (entriesInOrder s) with
      | Some entry =>
          match destroyWith fuel (resourceLoader entry) s with
          | Returned s' => clearEach fuel rest (deleted key s')
          | other => other
          end
      | None => clearEach fuel rest s
      end
  end.

(** [ResourceCache.clearForSpecs = function ()] *)
Definition clearForSpecsWith (fuel : nat) (s : OrderedRealm) : Outcome :=
  clearEach fuel (map fst (entriesInOrder s)) s.

(** *** Sample loaders with a dependency

    Two buffer views of one glTF, each of which acquired the external
    buffer [bufferA] while loading. *)

Definition viewKeyV : string := "buffer-view:https://example.com/m.gltf-0".
Definition viewKeyW : string := "buffer-view:https://example.com/m.gltf-1".

Definition viewV : ResourceLoader := {| objectId := 2; cacheKey := viewKeyV |}.
Definition viewW : ResourceLoader := {| objectId := 4; cacheKey := viewKeyW |}.

Definition viewEntry (view : ResourceLoader) : CacheEntry :=
  {| referenceCount := 1; resourceLoader := view; keepResident := false |}.

Definition sampleDependencies (l : ResourceLoader) : list ResourceLoader :=
  if decide (l = viewV) then [bufferA]
  else if decide (l = viewW) then [bufferA]
  else [].

(** The registry after [loadBufferView] for the first view, whose
    [load()] registered the buffer, and [loadBufferView] for the second
    view, whose [load()] found the buffer registered. *)
Definition twoViews : OrderedRealm :=
  {| entriesInOrder :=
       [(viewKeyV, viewEntry viewV); (bufferKey, bufferEntry 2);
        (viewKeyW, viewEntry viewW)];
     callsMade :=
       [Constructed viewV; LoadCalled viewV;
        Constructed bufferA; LoadCalled bufferA;
        Constructed viewW; LoadCalled viewW] |}.

(** [twoViews] after the consumer of the first view released it: the
    buffer now precedes the view that still depends on it. *)
Definition secondViewLeft : OrderedRealm :=
  {| entriesInOrder :=
       [(bufferKey, bufferEntry 1); (viewKeyW, viewEntry viewW)];
     callsMade := callsMade twoViews ++ [DestroyCalled viewV] |}.

(** One view, registered before the buffer it acquired. *)
Definition oneView : OrderedRealm :=
  {| entriesInOrder :=
       [(viewKeyV, viewEntry viewV); (bufferKey, bufferEntry 1)];
     callsMade :=
       [Constructed viewV; LoadCalled viewV;
        Constructed bufferA; LoadCalled bufferA] |}.

(** The sample registry of two unrelated loaders, as an object. *)
Definition sharedOrdered : OrderedRealm :=
  {| entriesInOrder := [(schemaKey, schemaEntry 1); (bufferKey, bufferEntry 3)];
     callsMade := calls sharedRealm |}.

(** ** Properties *)

Ltac js_unfold :=
  unfold get, load, unload, clearEntry, Check_typeOf_string,
    bind, ret, throw, readEntry, writeEntry, deleteEntry, invoke,
    withEntries.

Lemma withEntries_same (r : Realm) : withEntries r (cacheEntries r) [] = r.
Proof. destruct r; unfold withEntries; simpl. by rewrite app_nil_r. Qed.

Lemma setReferenceCount_same (entry : CacheEntry) :
  setReferenceCount entry (referenceCount entry) = entry.
Proof. by destruct entry. Qed.

(** **** [get] *)

Lemma get_rejected (key : string) (r : Realm) :
  typeOfString key = false -> get key r = Throw (CheckFailed "cacheKey") r.
Proof. intros Hc. js_unfold. by rewrite Hc. Qed.

Lemma get_present (key : string) (entry : CacheEntry) (r : Realm) :
  typeOfString key = true ->
  cacheEntries r !! key = Some entry ->
  get key r =
  Normal (Some (resourceLoader entry))
    (withEntries r
       (<[key := setReferenceCount entry (referenceCount entry + 1)]>
          (cacheEntries r)) []).
Proof.
  intros Hc Hk. js_unfold. rewrite Hc, Hk. simpl.
  by rewrite app_nil_r.
Qed.

Lemma get_absent (key : string) (r : Realm) :
  typeOfString key = true ->
  cacheEntries r !! key = None ->
  get key r = Normal None r.
Proof. intros Hc Hk. js_unfold. by rewrite Hc, Hk. Qed.

(** C8: for a key that is not in the registry, [get] leaves the whole
    realm (the registry with every entry's [referenceCount] and
    [keepResident], and the loaders) as it was, and it returns
    [undefined] when the key passes its type check. *)
Theorem get_absent_no_mutation (key : string) (r : Realm) :
  cacheEntries r !! key = None ->
  realmOf (get key r) = r /\
  (typeOfString key = true -> get key r = Normal None r).
Proof.
  intros Hk. split.
  - destruct (typeOfString key) eqn:Hc.
    + by rewrite get_absent.
    + by rewrite get_rejected.
  - intros Hc. by apply get_absent.
Qed.

(** **** [unload] *)

Lemma unload_absent (loader : ResourceLoader) (r : Realm) :
  cacheEntries r !! cacheKey loader = None ->
  unload loader r =
  Throw (DeveloperError ("Resource is not in the cache: " +:+ cacheKey loader)) r.
Proof. intros Hk. js_unfold. by rewrite Hk. Qed.

Lemma unload_no_references (loader : ResourceLoader) (entry : CacheEntry)
  (r : Realm) :
  cacheEntries r !! cacheKey loader = Some entry ->
  referenceCount entry = 0 ->
  unload loader r =
  Throw (DeveloperError "Cannot unload resource that has no references.") r.
Proof. intros Hk H0. js_unfold. by rewrite Hk, H0. Qed.

(** An [unload] that leaves the entry in the registry: references remain,
    or the entry is resident. *)
Lemma unload_keeps (loader : ResourceLoader) (entry : CacheEntry) (r : Realm) :
  cacheEntries r !! cacheKey loader = Some entry ->
  referenceCount entry <> 0 ->
  referenceCount entry <> 1 \/ keepResident entry = true ->
  unload loader r =
  Normal tt
    (withEntries r
       (<[cacheKey loader := setReferenceCount entry (referenceCount entry - 1)]>
          (cacheEntries r)) []).
Proof.
  intros Hk Hn Hkeep. js_unfold. rewrite Hk. simpl.
  destruct (Z.eqb_spec (referenceCount entry) 0) as [|_]; [done|].
  destruct Hkeep as [H1 | Hres].
  - destruct (Z.eqb_spec (referenceCount entry - 1) 0) as [E|_]; [lia|].
    simpl. by rewrite app_nil_r.
  - rewrite Hres, andb_false_r. by rewrite app_nil_r.
Qed.

(** The [unload] of the last reference of an entry that is not resident:
    [destroy()] is called on the argument and the key is deleted. *)
Lemma unload_last (loader : ResourceLoader) (entry : CacheEntry) (r : Realm) :
  cacheEntries r !! cacheKey loader = Some entry ->
  referenceCount entry = 1 ->
  keepResident entry = false ->
  unload loader r =
  Normal tt
    (withEntries r (delete (cacheKey loader) (cacheEntries r))
       [DestroyCalled loader]).
Proof.
  intros Hk H1 Hres. js_unfold. rewrite Hk. simpl.
  rewrite H1, Hres. simpl. by rewrite delete_insert_eq.
Qed.

(** C4: [unload] with a loader whose key is not in the registry, or whose
    entry has [referenceCount] 0, throws a [DeveloperError] and leaves
    the whole realm as it was: the registry, every entry's fields, and no
    [destroy()]. *)
Theorem unload_contract_violation (loader : ResourceLoader) (r : Realm) :
  cacheEntries r !! cacheKey loader = None \/
  (exists entry, cacheEntries r !! cacheKey loader = Some entry /\
                 referenceCount entry = 0) ->
  exists message, unload loader r = Throw (DeveloperError message) r.
Proof.
  intros [Hk | (entry & Hk & H0)].
  - eexists. by apply unload_absent.
  - eexists. by eapply unload_no_references.
Qed.


(** **** [load] *)

Lemma load_rejected (options : LoadOptions) (r : Realm) :
  typeOfString (cacheKey (load_resourceLoader options)) = false ->
  load options r = Throw (CheckFailed "options.resourceLoader.cacheKey") r.
Proof. intros Hc. js_unfold. by rewrite Hc. Qed.

Lemma load_fresh (options : LoadOptions) (r : Realm) :
  let loader := load_resourceLoader options in
  typeOfString (cacheKey loader) = true ->
  cacheEntries r !! cacheKey loader = None ->
  load options r =
  Normal tt
    (withEntries r
       (<[cacheKey loader :=
            {| referenceCount := 1;
               resourceLoader := loader;
               keepResident := defaultValue (load_keepResident options) false |}]>
          (cacheEntries r))
       [LoadCalled loader]).
Proof.
  intros loader Hc Hk. js_unfold. fold loader. by rewrite Hc, Hk.
Qed.

Lemma load_present (options : LoadOptions) (first : CacheEntry) (r : Realm) :
  cacheEntries r !! cacheKey (load_resourceLoader options) = Some first ->
  realmOf (load options r) = r /\ isThrow (load options r) = true.
Proof.
  intros Hk. js_unfold.
  destruct (typeOfString (cacheKey (load_resourceLoader options))); [|done].
  by rewrite Hk.
Qed.

(** C3: when the key of the loader is already in the registry, [load]
    throws and leaves the whole realm as it was: the first entry keeps
    its loader, [referenceCount] and [keepResident], and [load()] is not
    called on the second loader.  The error is the [DeveloperError] of
    the duplicate test whenever the key passes the type check before
    it. *)
Theorem load_duplicate_rejected (options : LoadOptions) (first : CacheEntry)
  (r : Realm) :
  let key := cacheKey (load_resourceLoader options) in
  cacheEntries r !! key = Some first ->
  exists e,
    load options r = Throw e r /\
    (typeOfString key = true ->
     e = DeveloperError
           ("Resource with this cacheKey is already in the cache: " +:+ key)).
Proof.
  intros key Hk. js_unfold. fold key.
  destruct (typeOfString key) eqn:Hc.
  - rewrite Hk. simpl. eexists. split; done.
  - eexists. split; done.
Qed.

(** **** Repeated [unload] *)

Lemma withEntries_twice (r : Realm) (m1 m2 : gmap string CacheEntry)
  (c1 c2 : list Call) :
  withEntries (withEntries r m1 c1) m2 c2 = withEntries r m2 (c1 ++ c2).
Proof. unfold withEntries; simpl. by rewrite app_assoc. Qed.

Lemma repeatJs_last (n : nat) (m : Js unit) (r : Realm) :
  repeatJs (S n) m r =
  match repeatJs n m r with
  | Normal _ r' => m r'
  | Throw e r' => Throw e r'
  end.
Proof.
  revert r. induction n as [|n IH]; intros r.
  - simpl. unfold bind, ret. by destruct (m r) as [[] ?|].
  - change (repeatJs (S (S n)) m r) with (bind m (fun _ => repeatJs (S n) m) r).
    change (repeatJs (S n) m r) with (bind m (fun _ => repeatJs n m) r).
    unfold bind. destruct (m r) as [[] r1|]; [apply IH | done].
Qed.

(** While references remain after them, [j] calls of [unload] only
    count down. *)
Lemma repeatJs_unload_counts_down (j : nat) (loader : ResourceLoader)
  (entry : CacheEntry) (r : Realm) :
  cacheEntries r !! cacheKey loader = Some entry ->
  Z.of_nat j < referenceCount entry ->
  repeatJs j (unload loader) r =
  Normal tt
    (withEntries r
       (<[cacheKey loader :=
            setReferenceCount entry (referenceCount entry - Z.of_nat j)]>
          (cacheEntries r)) []).
Proof.
  revert entry r. induction j as [|j IH]; intros entry r Hk Hlt.
  - simpl. unfold ret. rewrite Z.sub_0_r, setReferenceCount_same.
    rewrite insert_id by done. by rewrite withEntries_same.
  - change (repeatJs (S j) (unload loader) r)
      with (bind (unload loader) (fun _ => repeatJs j (unload loader)) r).
    unfold bind. rewrite (unload_keeps loader entry r Hk) by lia.
    rewrite (IH (setReferenceCount entry (referenceCount entry - 1))).
    + rewrite withEntries_twice. simpl. rewrite insert_insert_eq.
      do 3 f_equal. unfold setReferenceCount; simpl. f_equal. lia.
    + simpl. apply lookup_insert_eq.
    + simpl. lia.
Qed.


(** **** Resident entries *)

(** C10: a resident entry whose [referenceCount] is 0 is still found by
    [get], which returns its loader and sets the count to 1, every other
    entry being as before; an [unload] with a loader of that key then
    returns, takes the count back to 0 and keeps the entry, with no call
    on the loader, and one more [unload] throws. *)
Theorem resident_entry_reacquired (key : string) (entry : CacheEntry)
  (r : Realm) :
  typeOfString key = true ->
  cacheEntries r !! key = Some entry ->
  keepResident entry = true ->
  referenceCount entry = 0 ->
  exists r1,
    get key r = Normal (Some (resourceLoader entry)) r1 /\
    cacheEntries r1 = <[key := setReferenceCount entry 1]> (cacheEntries r) /\
    calls r1 = calls r /\
    forall loader, cacheKey loader = key ->
      exists r2,
        unload loader r1 = Normal tt r2 /\
        cacheEntries r2 = <[key := setReferenceCount entry 0]> (cacheEntries r) /\
        calls r2 = calls r /\
        unload loader r2 =
        Throw (DeveloperError "Cannot unload resource that has no references.")
          r2.
Proof.
  intros Hc Hk Hres H0. eexists. split; [by apply get_present|].
  rewrite H0. simpl. split; [done|]. split; [by rewrite app_nil_r|].
  intros loader <-. eexists. split.
  - eapply unload_keeps; simpl; [apply lookup_insert_eq | done | by right].
  - simpl. rewrite insert_insert_eq. split; [done|].
    split; [by rewrite !app_nil_r|].
    eapply unload_no_references; simpl; [apply lookup_insert_eq | done].
Qed.

(** **** [clearForSpecs] *)

Lemma clearEntry_present (key : string) (entry : CacheEntry) (r : Realm) :
  cacheEntries r !! key = Some entry ->
  clearEntry key r =
  Normal tt
    (withEntries r (delete key (cacheEntries r))
       [DestroyCalled (resourceLoader entry)]).
Proof. intros Hk. js_unfold. by rewrite Hk. Qed.

Lemma lookup_foldl_delete (keys : list string) (m : gmap string CacheEntry)
  (i : string) :
  foldl (fun m' k => delete k m') m keys !! i =
  if decide (i ∈ keys) then None else m !! i.
Proof.
  revert m. induction keys as [|k keys IH]; intros m.
  - destruct (decide (i ∈ [])) as [Hin|_]; [by apply elem_of_nil in Hin | done].
  - change (foldl (fun m' k0 => delete k0 m') m (k :: keys))
      with (foldl (fun m' k0 => delete k0 m') (delete k m) keys).
    rewrite IH.
    destruct (decide (i ∈ keys)) as [Hin|Hin];
      destruct (decide (i ∈ k :: keys)) as [Hin'|Hin']; try done.
    + exfalso. apply Hin'. by right.
    + apply elem_of_cons in Hin' as [->|?]; [apply lookup_delete_eq | done].
    + apply lookup_delete_ne. intros ->. apply Hin'. by left.
Qed.

(** The loop over a list of entries that are all in the registry, each
    key once. *)
Lemma forEach_clearEntry (kvs : list (string * CacheEntry)) (r : Realm) :
  NoDup (map fst kvs) ->
  (forall k e, (k, e) ∈ kvs -> cacheEntries r !! k = Some e) ->
  forEach (map fst kvs) clearEntry r =
  Normal tt
    (withEntries r
       (foldl (fun m' k => delete k m') (cacheEntries r) (map fst kvs))
       (map (fun kv => DestroyCalled (resourceLoader (snd kv))) kvs)).
Proof.
  revert r. induction kvs as [|[k e] kvs IH]; intros r Hnd Hin; simpl.
  - unfold ret. by rewrite withEntries_same.
  - apply NoDup_cons in Hnd as [Hk Hnd].
    unfold bind. rewrite (clearEntry_present k e) by (apply Hin; left).
    rewrite IH; [by rewrite withEntries_twice | done |].
    intros k' e' Hin'. simpl. rewrite lookup_delete_ne.
    + apply Hin. by right.
    + intros ->. apply Hk. apply list_elem_of_fmap.
      by exists (k', e').
Qed.

Lemma clearForSpecs_result (r : Realm) :
  clearForSpecs r =
  Normal tt
    (withEntries r ∅
       (map (fun kv => DestroyCalled (resourceLoader (snd kv)))
          (map_to_list (cacheEntries r)))).
Proof.
  unfold clearForSpecs. rewrite forEach_clearEntry.
  - do 2 f_equal. apply map_eq. intros i.
    rewrite lookup_foldl_delete, lookup_empty.
    case_decide as Hin; [done|].
    destruct (cacheEntries r !! i) as [e|] eqn:Hi; [|done].
    exfalso. apply Hin. apply list_elem_of_fmap.
    exists (i, e). split; [done|]. by apply elem_of_map_to_list.
  - apply NoDup_fst_map_to_list.
  - intros k e Hin. by apply elem_of_map_to_list.
Qed.

(** **** Requests of consumers and the resident entries *)

(** One request keeps a resident entry in place, with its loader, and
    calls [destroy()] on no loader of that key. *)
Lemma perform_keeps_resident (key : string) (entry : CacheEntry)
  (q : Request) (r : Realm) :
  cacheEntries r !! key = Some entry ->
  keepResident entry = true ->
  exists entry' made,
    cacheEntries (perform q r) !! key = Some entry' /\
    resourceLoader entry' = resourceLoader entry /\
    keepResident entry' = true /\
    calls (perform q r) = calls r ++ made /\
    (forall l, cacheKey l = key -> DestroyCalled l ∉ made).
Proof.
  intros Hk Hres.
  assert (Hsame : forall r', r' = r ->
            exists entry' made,
              cacheEntries r' !! key = Some entry' /\
              resourceLoader entry' = resourceLoader entry /\
              keepResident entry' = true /\
              calls r' = calls r ++ made /\
              (forall l, cacheKey l = key -> DestroyCalled l ∉ made)).
  { intros r' ->. exists entry, []. rewrite app_nil_r.
    repeat split; try done. intros l _. apply not_elem_of_nil. }
  destruct q as [k | options | loader]; simpl.
  - destruct (typeOfString k) eqn:Hc;
      [| apply Hsame; by rewrite get_rejected].
    destruct (cacheEntries r !! k) as [e2|] eqn:Hk2;
      [| apply Hsame; by rewrite get_absent].
    rewrite (get_present k e2) by done. simpl.
    destruct (decide (k = key)) as [->|Hne].
    + assert (e2 = entry) as -> by congruence.
      eexists _, []. rewrite lookup_insert_eq.
      repeat split; try done. intros l _. apply not_elem_of_nil.
    + exists entry, []. rewrite lookup_insert_ne by done.
      repeat split; try done. intros l _. apply not_elem_of_nil.
  - destruct (typeOfString (cacheKey (load_resourceLoader options))) eqn:Hc;
      [| apply Hsame; by rewrite load_rejected].
    destruct (cacheEntries r !! cacheKey (load_resourceLoader options))
      as [e2|] eqn:Hk2.
    + apply Hsame. by apply (load_present options e2).
    + rewrite load_fresh by done. simpl.
      exists entry, [LoadCalled (load_resourceLoader options)].
      rewrite lookup_insert_ne by congruence.
      repeat split; try done.
      intros l _ Hin. by apply list_elem_of_singleton in Hin.
  - destruct (cacheEntries r !! cacheKey loader) as [e2|] eqn:Hk2;
      [| apply Hsame; by rewrite unload_absent].
    destruct (decide (referenceCount e2 = 0)) as [H0|H0];
      [apply Hsame; by rewrite (unload_no_references loader e2)|].
    destruct (decide (cacheKey loader = key)) as [Heq|Hne].
    + assert (e2 = entry) as -> by congruence.
      rewrite (unload_keeps loader entry) by (try done; by right). simpl.
      eexists _, []. rewrite Heq, lookup_insert_eq.
      repeat split; try done. intros l _. apply not_elem_of_nil.
    + destruct (decide (referenceCount e2 = 1)) as [H1|H1];
        [destruct (keepResident e2) eqn:Hres2|].
      * rewrite (unload_keeps loader e2) by (try done; by right). simpl.
        exists entry, []. rewrite lookup_insert_ne by done.
        repeat split; try done. intros l _. apply not_elem_of_nil.
      * rewrite (unload_last loader e2) by done. simpl.
        exists entry, [DestroyCalled loader].
        rewrite lookup_delete_ne by done.
        repeat split; try done.
        intros l Hl Hin. apply list_elem_of_singleton in Hin. congruence.
      * rewrite (unload_keeps loader e2) by (try done; by left). simpl.
        exists entry, []. rewrite lookup_insert_ne by done.
        repeat split; try done. intros l _. apply not_elem_of_nil.
Qed.

Lemma performAll_keeps_resident (qs : list Request) (key : string)
  (entry : CacheEntry) (r : Realm) :
  cacheEntries r !! key = Some entry ->
  keepResident entry = true ->
  exists entry' made,
    cacheEntries (performAll qs r) !! key = Some entry' /\
    resourceLoader entry' = resourceLoader entry /\
    keepResident entry' = true /\
    calls (performAll qs r) = calls r ++ made /\
    (forall l, cacheKey l = key -> DestroyCalled l ∉ made).
Proof.
  revert entry r. induction qs as [|q qs IH]; intros entry r Hk Hres.
  - exists entry, []. simpl. rewrite app_nil_r.
    repeat split; try done. intros l _. apply not_elem_of_nil.
  - destruct (perform_keeps_resident key entry q r Hk Hres)
      as (e1 & made1 & Hk1 & Hl1 & Hres1 & Hc1 & Hd1).
    destruct (IH e1 (perform q r) Hk1 Hres1)
      as (e2 & made2 & Hk2 & Hl2 & Hres2 & Hc2 & Hd2).
    exists e2, (made1 ++ made2).
    change (performAll (q :: qs) r) with (performAll qs (perform q r)).
    split; [done|]. split; [congruence|]. split; [done|].
    split; [by rewrite Hc2, Hc1, app_assoc|].
    intros l Hl Hin. apply elem_of_app in Hin as [Hin|Hin].
    + by apply (Hd1 l).
    + by apply (Hd2 l).
Qed.


(** **** [loadExternalBuffer] *)

(** A hit: nothing is constructed, the count goes up by one. *)
Lemma loadExternalBuffer_hit (options : ExternalBufferOptions)
  (entry : CacheEntry) (r : Realm) :
  let key := getExternalBufferCacheKey (buffer_resource options) in
  typeOfString key = true ->
  cacheEntries r !! key = Some entry ->
  loadExternalBuffer options r =
  Normal (resourceLoader entry)
    (withEntries r
       (<[key := setReferenceCount entry (referenceCount entry + 1)]>
          (cacheEntries r)) []).
Proof.
  intros key Hc Hk. unfold loadExternalBuffer. fold key.
  unfold bind at 1. by rewrite (get_present key entry).
Qed.

(** A miss: one loader is constructed, registered with count 1 and told
    to load. *)
Lemma loadExternalBuffer_miss (options : ExternalBufferOptions) (r : Realm) :
  let key := getExternalBufferCacheKey (buffer_resource options) in
  let created := {| objectId := nextObjectId r; cacheKey := key |} in
  typeOfString key = true ->
  cacheEntries r !! key = None ->
  loadExternalBuffer options r =
  Normal created
    {| cacheEntries :=
         <[key := {| referenceCount := 1;
                     resourceLoader := created;
                     keepResident :=
                       defaultValue (buffer_keepResident options) false |}]>
           (cacheEntries r);
       calls := calls r ++ [Constructed created; LoadCalled created];
       nextObjectId := S (nextObjectId r) |}.
Proof.
  intros key created Hc Hk. unfold loadExternalBuffer. fold key.
  unfold bind at 1. rewrite get_absent by done.
  unfold bind at 1. unfold newLoader. fold created.
  unfold bind. rewrite load_fresh by done.
  unfold withEntries, ret. simpl. by rewrite <- app_assoc.
Qed.

Lemma mapJs_loadExternalBuffer_hits (optionsList : list ExternalBufferOptions)
  (key : string) (entry : CacheEntry) (r : Realm) :
  Forall (fun o => getExternalBufferCacheKey (buffer_resource o) = key)
    optionsList ->
  typeOfString key = true ->
  cacheEntries r !! key = Some entry ->
  mapJs loadExternalBuffer optionsList r =
  Normal (replicate (length optionsList) (resourceLoader entry))
    (withEntries r
       (<[key := setReferenceCount entry
                   (referenceCount entry + Z.of_nat (length optionsList))]>
          (cacheEntries r)) []).
Proof.
  intros Hall Hc. revert entry r.
  induction Hall as [|o os Ho Hall IH]; intros entry r Hk.
  - simpl. unfold ret. rewrite Z.add_0_r, setReferenceCount_same.
    rewrite insert_id by done. by rewrite withEntries_same.
  - change (mapJs loadExternalBuffer (o :: os) r)
      with (bind (loadExternalBuffer o)
              (fun y => bind (mapJs loadExternalBuffer os)
                          (fun ys => ret (y :: ys))) r).
    unfold bind at 1.
    rewrite (loadExternalBuffer_hit o entry r) by (rewrite Ho; done).
    rewrite Ho. unfold bind.
    rewrite (IH (setReferenceCount entry (referenceCount entry + 1)))
      by (simpl; apply lookup_insert_eq).
    unfold ret. rewrite withEntries_twice. simpl.
    rewrite insert_insert_eq. do 3 f_equal.
    unfold setReferenceCount; simpl. f_equal. lia.
Qed.

(** C1: from a registry that does not hold the key, N >= 1 calls of
    [loadExternalBuffer] whose descriptors all derive that key all
    return the same loader object; one loader was constructed and
    [load()] was called on it once, both in the first call (the log
    grows by exactly these two calls, for every N); the entry of the
    key has [referenceCount] N, that loader, and the [keepResident] of
    the first call. *)
Theorem loadExternalBuffer_N_times (first : ExternalBufferOptions)
  (rest : list ExternalBufferOptions) (key : string) (r : Realm) :
  Forall (fun o => getExternalBufferCacheKey (buffer_resource o) = key)
    (first :: rest) ->
  typeOfString key = true ->
  cacheEntries r !! key = None ->
  let n := length (first :: rest) in
  let loader := {| objectId := nextObjectId r; cacheKey := key |} in
  mapJs loadExternalBuffer (first :: rest) r =
  Normal (replicate n loader)
    {| cacheEntries :=
         <[key := {| referenceCount := Z.of_nat n;
                     resourceLoader := loader;
                     keepResident :=
                       defaultValue (buffer_keepResident first) false |}]>
           (cacheEntries r);
       calls := calls r ++ [Constructed loader; LoadCalled loader];
       nextObjectId := S (nextObjectId r) |}.
Proof.
  intros Hall Hc Hk n loader.
  apply Forall_cons in Hall as [Hfirst Hrest].
  change (mapJs loadExternalBuffer (first :: rest) r)
    with (bind (loadExternalBuffer first)
            (fun y => bind (mapJs loadExternalBuffer rest)
                        (fun ys => ret (y :: ys))) r).
  unfold bind at 1.
  rewrite (loadExternalBuffer_miss first r) by (rewrite Hfirst; done).
  rewrite Hfirst. fold loader. unfold bind.
  erewrite (mapJs_loadExternalBuffer_hits rest key);
    [| done | done | simpl; apply lookup_insert_eq].
  unfold ret, withEntries. simpl.
  rewrite insert_insert_eq, app_nil_r. do 3 f_equal.
  unfold setReferenceCount; simpl. f_equal.
  subst n. cbn [length]. lia.
Qed.

(** **** The registry invariant is kept *)

Lemma registryOk_empty : registryOk ∅.
Proof. intros key entry Hk. by rewrite lookup_empty in Hk. Qed.

Lemma registryOk_insert (m : gmap string CacheEntry) (key : string)
  (entry : CacheEntry) :
  registryOk m ->
  cacheKey (resourceLoader entry) = key ->
  registryOk (<[key := entry]> m).
Proof.
  intros Hok He k e Hk. destruct (decide (key = k)) as [->|Hne].
  - rewrite lookup_insert_eq in Hk. congruence.
  - rewrite lookup_insert_ne in Hk by done. by apply Hok.
Qed.

Lemma registryOk_delete (m : gmap string CacheEntry) (key : string) :
  registryOk m -> registryOk (delete key m).
Proof.
  intros Hok k e Hk. destruct (decide (key = k)) as [->|Hne].
  - by rewrite lookup_delete_eq in Hk.
  - rewrite lookup_delete_ne in Hk by done. by apply Hok.
Qed.

Lemma registryOk_perform (q : Request) (r : Realm) :
  registryOk (cacheEntries r) -> registryOk (cacheEntries (perform q r)).
Proof.
  intros Hok. destruct q as [k | options | loader]; simpl.
  - destruct (typeOfString k) eqn:Hc; [| by rewrite get_rejected].
    destruct (cacheEntries r !! k) as [e|] eqn:Hk;
      [| by rewrite get_absent].
    rewrite (get_present k e) by done. simpl.
    apply registryOk_insert; [done | exact (Hok _ _ Hk)].
  - destruct (typeOfString (cacheKey (load_resourceLoader options))) eqn:Hc;
      [| by rewrite load_rejected].
    destruct (cacheEntries r !! cacheKey (load_resourceLoader options))
      as [e|] eqn:Hk.
    + by rewrite (proj1 (load_present options e r Hk)).
    + rewrite load_fresh by done. simpl. by apply registryOk_insert.
  - destruct (cacheEntries r !! cacheKey loader) as [e|] eqn:Hk;
      [| by rewrite unload_absent].
    destruct (decide (referenceCount e = 0)) as [H0|H0];
      [by rewrite (unload_no_references loader e)|].
    destruct (decide (referenceCount e = 1)) as [H1|H1];
      [destruct (keepResident e) eqn:Hres|].
    + rewrite (unload_keeps loader e) by (try done; by right). simpl.
      apply registryOk_insert; [done | exact (Hok _ _ Hk)].
    + rewrite (unload_last loader e) by done. simpl.
      by apply registryOk_delete.
    + rewrite (unload_keeps loader e) by (try done; by left). simpl.
      apply registryOk_insert; [done | exact (Hok _ _ Hk)].
Qed.

Lemma registryOk_performAll (qs : list Request) (r : Realm) :
  registryOk (cacheEntries r) -> registryOk (cacheEntries (performAll qs r)).
Proof.
  revert r. induction qs as [|q qs IH]; intros r Hok; [done|].
  apply IH. by apply registryOk_perform.
Qed.

Lemma registryOk_loadExternalBuffer (options : ExternalBufferOptions)
  (r : Realm) :
  registryOk (cacheEntries r) ->
  registryOk (cacheEntries (realmOf (loadExternalBuffer options r))).
Proof.
  intros Hok.
  set (key := getExternalBufferCacheKey (buffer_resource options)).
  destruct (typeOfString key) eqn:Hc.
  - destruct (cacheEntries r !! key) as [e|] eqn:Hk.
    + rewrite (loadExternalBuffer_hit options e) by done. simpl.
      apply registryOk_insert; [done | exact (Hok _ _ Hk)].
    + rewrite loadExternalBuffer_miss by done. simpl.
      by apply registryOk_insert.
  - unfold loadExternalBuffer. fold key. unfold bind.
    by rewrite get_rejected.
Qed.

Lemma registryOk_clearForSpecs (r : Realm) :
  registryOk (cacheEntries (realmOf (clearForSpecs r))).
Proof. rewrite clearForSpecs_result. apply registryOk_empty. Qed.


(** **** The typed constructors *)

Lemma getOrLoad_rejected (key : string) (resident : bool) (r : Realm) :
  typeOfString key = false ->
  getOrLoad key resident r = Throw (CheckFailed "cacheKey") r.
Proof. intros Hc. unfold getOrLoad, bind. by rewrite get_rejected. Qed.

Lemma getOrLoad_hit (key : string) (resident : bool) (entry : CacheEntry)
  (r : Realm) :
  typeOfString key = true ->
  cacheEntries r !! key = Some entry ->
  getOrLoad key resident r =
  Normal (resourceLoader entry)
    (withEntries r
       (<[key := setReferenceCount entry (referenceCount entry + 1)]>
          (cacheEntries r)) []).
Proof.
  intros Hc Hk. unfold getOrLoad. unfold bind at 1.
  by rewrite (get_present key entry).
Qed.

Lemma getOrLoad_miss (key : string) (resident : bool) (r : Realm) :
  let created := {| objectId := nextObjectId r; cacheKey := key |} in
  typeOfString key = true ->
  cacheEntries r !! key = None ->
  getOrLoad key resident r =
  Normal created
    {| cacheEntries :=
         <[key := {| referenceCount := 1;
                     resourceLoader := created;
                     keepResident := resident |}]> (cacheEntries r);
       calls := calls r ++ [Constructed created; LoadCalled created];
       nextObjectId := S (nextObjectId r) |}.
Proof.
  intros created Hc Hk. unfold getOrLoad.
  unfold bind at 1. rewrite get_absent by done.
  unfold bind at 1. unfold newLoader. fold created.
  unfold bind. rewrite load_fresh by done.
  unfold withEntries, ret. simpl. by rewrite <- app_assoc.
Qed.

(** The tests on the options read nothing of the realm and change
    nothing. *)
Lemma Check_undefined_cases (verdict : bool) (name : string) (r : Realm) :
  Check_undefined verdict name r = Normal tt r \/
  Check_undefined verdict name r = Throw (CheckFailed name) r.
Proof. destruct verdict; [by left | by right]. Qed.

Lemma validation_cases (q : TypedRequest) (r : Realm) :
  validation q r = Normal tt r \/ exists e, validation q r = Throw e r.
Proof.
  assert (Hflag : forall name test r0,
            Check_typeOf_boolean name test r0 = Normal tt r0 \/
            exists e, Check_typeOf_boolean name test r0 = Throw e r0).
  { intros name [b|] r0; simpl.
    - destruct (Check_undefined_cases typeOfBooleanValue name r0) as [->| ->];
        eauto.
    - destruct (Check_undefined_cases typeOfBooleanUndefined name r0)
        as [->| ->]; eauto. }
  assert (Hformats : forall formats r0,
            checkSupportedImageFormats formats r0 = Normal tt r0 \/
            exists e, checkSupportedImageFormats formats r0 = Throw e r0).
  { intros formats r0. unfold checkSupportedImageFormats, bind.
    destruct (Hflag "options.supportedImageFormats.webp" (webp formats) r0)
      as [->|[e ->]]; [|eauto].
    destruct (Hflag "options.supportedImageFormats.s3tc" (s3tc formats) r0)
      as [->|[e ->]]; [|eauto].
    destruct (Hflag "options.supportedImageFormats.pvrtc" (pvrtc formats) r0)
      as [->|[e ->]]; [|eauto].
    apply Hflag. }
  destruct q as [o|o|o|o|o|o|o|o|o|o]; simpl; try by left.
  - destruct (Bool.eqb _ _); [right; by eexists | by left].
  - destruct (Bool.eqb _ _); [right; by eexists|].
    destruct (defined (vertex_draco o) && _); [right; by eexists|].
    destruct (vertex_draco o) as [d|]; [|by left].
    unfold bind.
    destruct (Check_undefined_cases typeOfObjectUndefined (dracoAsName d) r)
      as [->| ->]; [|eauto].
    destruct (Check_undefined_cases typeOfStringUndefined
                (semanticAsName (vertex_dracoAttributeSemantic o)) r)
      as [->| ->]; eauto.
  - apply Hformats.
  - apply Hformats.
Qed.

Lemma validation_any_realm (q : TypedRequest) (r r0 : Realm) :
  validation q r = Normal tt r -> validation q r0 = Normal tt r0.
Proof.
  assert (Hundef : forall verdict name,
            Check_undefined verdict name r = Normal tt r -> verdict = true).
  { intros [|] name; [done|]. by unfold Check_undefined, throw. }
  assert (Hflag : forall name test,
            Check_typeOf_boolean name test r = Normal tt r ->
            Check_typeOf_boolean name test r0 = Normal tt r0).
  { intros name [b|]; simpl; intros H; by rewrite (Hundef _ _ H). }
  assert (Hflag' : forall name test,
            Check_typeOf_boolean name test r = Normal tt r \/
            exists e, Check_typeOf_boolean name test r = Throw e r).
  { intros name [b|]; simpl.
    - destruct (Check_undefined_cases typeOfBooleanValue name r) as [->| ->];
        eauto.
    - destruct (Check_undefined_cases typeOfBooleanUndefined name r)
        as [->| ->]; eauto. }
  assert (Hformats : forall formats,
            checkSupportedImageFormats formats r = Normal tt r ->
            checkSupportedImageFormats formats r0 = Normal tt r0).
  { intros formats. unfold checkSupportedImageFormats, bind.
    destruct (Hflag' "options.supportedImageFormats.webp" (webp formats))
      as [H1|[e H1]]; rewrite H1; [|done].
    rewrite (Hflag _ _ H1).
    destruct (Hflag' "options.supportedImageFormats.s3tc" (s3tc formats))
      as [H2|[e H2]]; rewrite H2; [|done].
    rewrite (Hflag _ _ H2).
    destruct (Hflag' "options.supportedImageFormats.pvrtc" (pvrtc formats))
      as [H3|[e H3]]; rewrite H3; [|done].
    rewrite (Hflag _ _ H3). apply Hflag. }
  destruct q as [o|o|o|o|o|o|o|o|o|o]; simpl; try done.
  - by destruct (Bool.eqb _ _).
  - destruct (Bool.eqb _ _); [done|].
    destruct (defined (vertex_draco o) && _); [done|].
    destruct (vertex_draco o) as [d|]; [|done].
    unfold bind.
    destruct (Check_undefined_cases typeOfObjectUndefined (dracoAsName d) r)
      as [H1|H1]; rewrite H1; [|done].
    rewrite (Hundef _ _ H1). simpl.
    intros H2. by rewrite (Hundef _ _ H2).
  - apply Hformats.
  - apply Hformats.
Qed.

(** Every typed constructor is its tests followed by the common end. *)
Lemma loadTyped_unfold (q : TypedRequest) (r : Realm) :
  loadTyped q r =
  bind (validation q)
    (fun _ => getOrLoad (typedKey q) (typedResident q)) r.
Proof.
  destruct q as [o|o|o|o|o|o|o|o|o|o]; try reflexivity.
  - simpl. unfold loadSchema.
    destruct (Bool.eqb _ _); reflexivity.
  - simpl. unfold loadVertexBuffer.
    destruct (Bool.eqb _ _); [reflexivity|].
    destruct (defined (vertex_draco o) && _); reflexivity.
Qed.

Lemma loadTyped_rejected (q : TypedRequest) (e : Exception) (r : Realm) :
  validation q r = Throw e r -> loadTyped q r = Throw e r.
Proof. intros Hv. rewrite loadTyped_unfold. unfold bind. by rewrite Hv. Qed.

Lemma loadTyped_accepted (q : TypedRequest) (r : Realm) :
  validation q r = Normal tt r ->
  loadTyped q r = getOrLoad (typedKey q) (typedResident q) r.
Proof. intros Hv. rewrite loadTyped_unfold. unfold bind. by rewrite Hv. Qed.


Lemma mapJs_loadTyped_hits (qs : list TypedRequest) (key : string)
  (entry : CacheEntry) (r : Realm) :
  Forall (fun q => typedKey q = key /\
                   forall r0, validation q r0 = Normal tt r0) qs ->
  typeOfString key = true ->
  cacheEntries r !! key = Some entry ->
  mapJs loadTyped qs r =
  Normal (replicate (length qs) (resourceLoader entry))
    (withEntries r
       (<[key := setReferenceCount entry
                   (referenceCount entry + Z.of_nat (length qs))]>
          (cacheEntries r)) []).
Proof.
  intros Hall Hc. revert entry r.
  induction Hall as [|q qs [Hq Hv] Hall IH]; intros entry r Hk.
  - simpl. unfold ret. rewrite Z.add_0_r, setReferenceCount_same.
    rewrite insert_id by done. by rewrite withEntries_same.
  - change (mapJs loadTyped (q :: qs) r)
      with (bind (loadTyped q)
              (fun y => bind (mapJs loadTyped qs) (fun ys => ret (y :: ys))) r).
    unfold bind at 1. rewrite (loadTyped_accepted q r (Hv r)), Hq.
    rewrite (getOrLoad_hit key _ entry) by done.
    unfold bind.
    rewrite (IH (setReferenceCount entry (referenceCount entry + 1)))
      by (simpl; apply lookup_insert_eq).
    unfold ret. rewrite withEntries_twice. simpl.
    rewrite insert_insert_eq. do 3 f_equal.
    unfold setReferenceCount; simpl. f_equal. lia.
Qed.

Lemma mapJs_loadTyped_from_absent (first : TypedRequest)
  (rest : list TypedRequest) (key : string) (r : Realm) :
  Forall (fun q => typedKey q = key /\
                   forall r0, validation q r0 = Normal tt r0)
    (first :: rest) ->
  typeOfString key = true ->
  cacheEntries r !! key = None ->
  let loader := {| objectId := nextObjectId r; cacheKey := key |} in
  mapJs loadTyped (first :: rest) r =
  Normal (replicate (S (length rest)) loader)
    {| cacheEntries :=
         <[key := {| referenceCount := Z.of_nat (S (length rest));
                     resourceLoader := loader;
                     keepResident := typedResident first |}]> (cacheEntries r);
       calls := calls r ++ [Constructed loader; LoadCalled loader];
       nextObjectId := S (nextObjectId r) |}.
Proof.
  intros Hall Hc Hk loader.
  apply Forall_cons in Hall as [[Hfirst Hv] Hrest].
  change (mapJs loadTyped (first :: rest) r)
    with (bind (loadTyped first)
            (fun y => bind (mapJs loadTyped rest) (fun ys => ret (y :: ys))) r).
  unfold bind at 1. rewrite (loadTyped_accepted first r (Hv r)), Hfirst.
  rewrite getOrLoad_miss by done. fold loader. unfold bind.
  erewrite (mapJs_loadTyped_hits rest key);
    [| done | done | simpl; apply lookup_insert_eq].
  unfold ret, withEntries. simpl.
  rewrite insert_insert_eq, app_nil_r. do 3 f_equal.
  unfold setReferenceCount; simpl. f_equal. lia.
Qed.


(** **** A call that throws *)

Lemma get_throw_same (key : string) (r : Realm) :
  isThrow (get key r) = true -> realmOf (get key r) = r.
Proof.
  destruct (typeOfString key) eqn:Hc; [| by rewrite get_rejected].
  destruct (cacheEntries r !! key) as [e|] eqn:Hk.
  - by rewrite (get_present key e).
  - by rewrite get_absent.
Qed.

Lemma load_throw_same (options : LoadOptions) (r : Realm) :
  isThrow (load options r) = true -> realmOf (load options r) = r.
Proof.
  destruct (typeOfString (cacheKey (load_resourceLoader options))) eqn:Hc;
    [| by rewrite load_rejected].
  destruct (cacheEntries r !! cacheKey (load_resourceLoader options))
    as [e|] eqn:Hk.
  - intros _. by apply (load_present options e).
  - by rewrite load_fresh.
Qed.

Lemma unload_throw_same (loader : ResourceLoader) (r : Realm) :
  isThrow (unload loader r) = true -> realmOf (unload loader r) = r.
Proof.
  destruct (cacheEntries r !! cacheKey loader) as [e|] eqn:Hk;
    [| by rewrite unload_absent].
  destruct (decide (referenceCount e = 0)) as [H0|H0];
    [by rewrite (unload_no_references loader e)|].
  destruct (decide (referenceCount e = 1)) as [H1|H1];
    [destruct (keepResident e) eqn:Hres|].
  - by rewrite (unload_keeps loader e) by (try done; by right).
  - by rewrite (unload_last loader e).
  - by rewrite (unload_keeps loader e) by (try done; by left).
Qed.

Lemma getOrLoad_throw_same (key : string) (resident : bool) (r : Realm) :
  isThrow (getOrLoad key resident r) = true ->
  realmOf (getOrLoad key resident r) = r.
Proof.
  destruct (typeOfString key) eqn:Hc; [| by rewrite getOrLoad_rejected].
  destruct (cacheEntries r !! key) as [e|] eqn:Hk.
  - by rewrite (getOrLoad_hit key resident e).
  - by rewrite getOrLoad_miss.
Qed.

Lemma loadTyped_throw_same (q : TypedRequest) (r : Realm) :
  isThrow (loadTyped q r) = true -> realmOf (loadTyped q r) = r.
Proof.
  destruct (validation_cases q r) as [Hv|[e Hv]].
  - rewrite (loadTyped_accepted q r Hv). apply getOrLoad_throw_same.
  - by rewrite (loadTyped_rejected q e r Hv).
Qed.


(** **** The tests of the typed constructors *)

(** What a typed constructor leaves behind when the key passes the
    check: the loader it returns is the one registered under the key. *)
Lemma getOrLoad_returns (key : string) (resident : bool) (r : Realm) :
  typeOfString key = true ->
  exists loader r' entry,
    getOrLoad key resident r = Normal loader r' /\
    cacheEntries r' !! key = Some entry /\
    resourceLoader entry = loader.
Proof.
  intros Hc. destruct (cacheEntries r !! key) as [e|] eqn:Hk.
  - rewrite (getOrLoad_hit key resident e) by done.
    eexists _, _, _. split; [done|]. simpl.
    split; [apply lookup_insert_eq | done].
  - rewrite getOrLoad_miss by done.
    eexists _, _, _. split; [done|]. simpl.
    split; [apply lookup_insert_eq | done].
Qed.

(** X4: [loadSchema] throws its [DeveloperError], and changes nothing,
    when the options give both a schema and a resource or give neither;
    when they give exactly one of the two and the key passes the check
    of [get], it returns the loader registered under the schema key. *)
Theorem loadSchema_one_source (options : SchemaOptions) (r : Realm) :
  let key := getSchemaCacheKey (schema_schema options)
               (schema_resource options) in
  (defined (schema_schema options) = defined (schema_resource options) ->
   loadSchema options r =
   Throw (DeveloperError
            "One of options.schema and options.resource must be defined.") r) /\
  (defined (schema_schema options) <> defined (schema_resource options) ->
   typeOfString key = true ->
   exists loader r' entry,
     loadSchema options r = Normal loader r' /\
     cacheEntries r' !! key = Some entry /\
     resourceLoader entry = loader).
Proof.
  intros key. unfold loadSchema. fold key. split.
  - intros ->. by rewrite Bool.eqb_reflx.
  - intros Hne Hc.
    destruct (Bool.eqb _ _) eqn:He; [by apply Bool.eqb_prop in He|].
    by apply (getOrLoad_returns key _ r).
Qed.

(** X5: the two tests of [loadVertexBuffer] on its options.  With both a
    [bufferViewId] and a Draco extension, or with neither, the first
    [DeveloperError] is thrown; with a Draco extension and no
    [dracoAttributeSemantic], the second; with a [bufferViewId] alone,
    whatever the semantic, the call returns the loader registered under
    the vertex buffer key.  A call that throws changes nothing. *)
Theorem loadVertexBuffer_validation (options : VertexBufferOptions)
  (r : Realm) :
  let key := getVertexBufferCacheKey (vertex_gltf options)
               (vertex_gltfResource options) (vertex_baseResource options)
               (vertex_bufferViewId options) (vertex_draco options)
               (vertex_dracoAttributeSemantic options) in
  (defined (vertex_bufferViewId options) = defined (vertex_draco options) ->
   loadVertexBuffer options r =
   Throw (DeveloperError
            "One of options.bufferViewId and options.draco must be defined.")
     r) /\
  (vertex_bufferViewId options = None ->
   defined (vertex_draco options) = true ->
   vertex_dracoAttributeSemantic options = None ->
   loadVertexBuffer options r =
   Throw (DeveloperError
            "When options.draco is defined options.dracoAttributeSemantic must also be defined.")
     r) /\
  (defined (vertex_bufferViewId options) = true ->
   vertex_draco options = None ->
   typeOfString key = true ->
   exists loader r' entry,
     loadVertexBuffer options r = Normal loader r' /\
     cacheEntries r' !! key = Some entry /\
     resourceLoader entry = loader).
Proof.
  intros key. unfold loadVertexBuffer. fold key. repeat split.
  - intros ->. by rewrite Bool.eqb_reflx.
  - intros -> -> ->. reflexivity.
  - intros -> Hd Hc. subst key. rewrite Hd in *. simpl.
    by apply (getOrLoad_returns _ _ r).
Qed.

(** X6: when [Check.typeOf.object] rejects [undefined], every call of
    [loadVertexBuffer] whose options carry a Draco extension throws and
    changes nothing: past the two tests on the options it reaches
    [Check.typeOf.object(draco)], whose tested value is [undefined]. *)
Theorem loadVertexBuffer_draco_rejected (options : VertexBufferOptions)
  (d : Draco) (r : Realm) :
  typeOfObjectUndefined = false ->
  vertex_draco options = Some d ->
  (exists e, loadVertexBuffer options r = Throw e r) /\
  (vertex_bufferViewId options = None ->
   defined (vertex_dracoAttributeSemantic options) = true ->
   loadVertexBuffer options r = Throw (CheckFailed (dracoAsName d)) r).
Proof.
  intros Hobj Hd. unfold loadVertexBuffer. rewrite Hd, Hobj. simpl. split.
  - destruct (Bool.eqb _ _); [by eexists|].
    destruct (negb _); by eexists.
  - intros -> ->. reflexivity.
Qed.

(** A missing flag stops the checks on the image formats. *)
Lemma checkSupportedImageFormats_missing (formats : SupportedImageFormats)
  (r : Realm) :
  typeOfBooleanUndefined = false ->
  webp formats = None \/ s3tc formats = None \/
  pvrtc formats = None \/ etc1 formats = None ->
  exists name, checkSupportedImageFormats formats r = Throw (CheckFailed name) r.
Proof.
  intros Hb Hmiss. unfold checkSupportedImageFormats, bind.
  unfold Check_typeOf_boolean, Check_undefined. rewrite Hb.
  destruct typeOfBooleanValue.
  - destruct (webp formats); [|by eexists].
    destruct (s3tc formats); [|by eexists].
    destruct (pvrtc formats); [|by eexists].
    destruct (etc1 formats); [|by eexists].
    by destruct Hmiss as [H|[H|[H|H]]].
  - destruct (webp formats); by eexists.
Qed.

(** X7: when [Check.typeOf.boolean] rejects [undefined], [loadImage] and
    [loadTexture] throw, and change nothing, as soon as one of the four
    flags of [supportedImageFormats] is missing; with the options
    object itself missing it is the check on [webp] that throws. *)
Theorem image_formats_required (r : Realm) :
  typeOfBooleanUndefined = false ->
  (forall options,
     let formats :=
       defaultValue (image_supportedImageFormats options) EMPTY_FORMATS in
     webp formats = None \/ s3tc formats = None \/
     pvrtc formats = None \/ etc1 formats = None ->
     exists name, loadImage options r = Throw (CheckFailed name) r) /\
  (forall options,
     let formats :=
       defaultValue (texture_supportedImageFormats options) EMPTY_FORMATS in
     webp formats = None \/ s3tc formats = None \/
     pvrtc formats = None \/ etc1 formats = None ->
     exists name, loadTexture options r = Throw (CheckFailed name) r) /\
  (forall options,
     image_supportedImageFormats options = None ->
     loadImage options r =
     Throw (CheckFailed "options.supportedImageFormats.webp") r) /\
  (forall options,
     texture_supportedImageFormats options = None ->
     loadTexture options r =
     Throw (CheckFailed "options.supportedImageFormats.webp") r).
Proof.
  intros Hb. repeat split.
  - intros options formats Hmiss.
    destruct (checkSupportedImageFormats_missing formats r Hb Hmiss)
      as [name Hname].
    exists name. apply (loadTyped_rejected (RequestImage options)). exact Hname.
  - intros options formats Hmiss.
    destruct (checkSupportedImageFormats_missing formats r Hb Hmiss)
      as [name Hname].
    exists name. apply (loadTyped_rejected (RequestTexture options)).
    exact Hname.
  - intros options Hnone. apply (loadTyped_rejected (RequestImage options)).
    simpl. rewrite Hnone. unfold checkSupportedImageFormats, bind. simpl.
    unfold Check_undefined. by rewrite Hb.
  - intros options Hnone. apply (loadTyped_rejected (RequestTexture options)).
    simpl. rewrite Hnone. unfold checkSupportedImageFormats, bind. simpl.
    unfold Check_undefined. by rewrite Hb.
Qed.

(** **** The invariants of the registry *)

Lemma countsOk_empty : countsOk ∅.
Proof. intros key entry Hk. by rewrite lookup_empty in Hk. Qed.

Lemma countsOk_insert (m : gmap string CacheEntry) (key : string)
  (entry : CacheEntry) :
  countsOk m ->
  0 <= referenceCount entry ->
  (keepResident entry = false -> 1 <= referenceCount entry) ->
  countsOk (<[key := entry]> m).
Proof.
  intros Hok H0 H1 k e Hk. destruct (decide (key = k)) as [->|Hne].
  - rewrite lookup_insert_eq in Hk. injection Hk as <-. by split.
  - rewrite lookup_insert_ne in Hk by done. exact (Hok k e Hk).
Qed.

Lemma countsOk_delete (m : gmap string CacheEntry) (key : string) :
  countsOk m -> countsOk (delete key m).
Proof.
  intros Hok k e Hk. destruct (decide (key = k)) as [->|Hne].
  - by rewrite lookup_delete_eq in Hk.
  - rewrite lookup_delete_ne in Hk by done. exact (Hok k e Hk).
Qed.

Lemma countsOk_perform (q : Request) (r : Realm) :
  countsOk (cacheEntries r) -> countsOk (cacheEntries (perform q r)).
Proof.
  intros Hok. destruct q as [k | options | loader]; simpl.
  - destruct (typeOfString k) eqn:Hc; [| by rewrite get_rejected].
    destruct (cacheEntries r !! k) as [e|] eqn:Hk; [| by rewrite get_absent].
    rewrite (get_present k e) by done. simpl.
    destruct (Hok k e Hk) as [H0 H1].
    apply countsOk_insert; simpl; [done | lia | intros Hres; lia].
  - destruct (typeOfString (cacheKey (load_resourceLoader options))) eqn:Hc;
      [| by rewrite load_rejected].
    destruct (cacheEntries r !! cacheKey (load_resourceLoader options))
      as [e|] eqn:Hk.
    + by rewrite (proj1 (load_present options e r Hk)).
    + rewrite load_fresh by done. simpl.
      apply countsOk_insert; simpl; [done | lia | intros _; lia].
  - destruct (cacheEntries r !! cacheKey loader) as [e|] eqn:Hk;
      [| by rewrite unload_absent].
    destruct (Hok _ e Hk) as [Hge Hres1].
    destruct (decide (referenceCount e = 0)) as [H0|H0];
      [by rewrite (unload_no_references loader e)|].
    destruct (decide (referenceCount e = 1)) as [H1|H1];
      [destruct (keepResident e) eqn:Hres|].
    + rewrite (unload_keeps loader e) by (try done; by right). simpl.
      apply countsOk_insert; simpl; [done | lia | by rewrite Hres].
    + rewrite (unload_last loader e) by done. simpl.
      by apply countsOk_delete.
    + rewrite (unload_keeps loader e) by (try done; by left). simpl.
      apply countsOk_insert; simpl; [done | lia | intros _; lia].
Qed.

Lemma invariants_getOrLoad (key : string) (resident : bool) (r : Realm) :
  registryOk (cacheEntries r) ->
  countsOk (cacheEntries r) ->
  registryOk (cacheEntries (realmOf (getOrLoad key resident r))) /\
  countsOk (cacheEntries (realmOf (getOrLoad key resident r))).
Proof.
  intros Hreg Hcnt.
  destruct (typeOfString key) eqn:Hc; [| by rewrite getOrLoad_rejected].
  destruct (cacheEntries r !! key) as [e|] eqn:Hk.
  - rewrite (getOrLoad_hit key resident e) by done. simpl.
    destruct (Hcnt key e Hk) as [H0 H1]. split.
    + apply registryOk_insert; [done | exact (Hreg _ _ Hk)].
    + apply countsOk_insert; simpl; [done | lia | intros _; lia].
  - rewrite getOrLoad_miss by done. simpl. split.
    + by apply registryOk_insert.
    + apply countsOk_insert; simpl; [done | lia | intros _; lia].
Qed.

Lemma invariants_act (a : Action) (r : Realm) :
  registryOk (cacheEntries r) ->
  countsOk (cacheEntries r) ->
  registryOk (cacheEntries (act a r)) /\ countsOk (cacheEntries (act a r)).
Proof.
  intros Hreg Hcnt. destruct a as [q | q |]; simpl.
  - split; [by apply registryOk_perform | by apply countsOk_perform].
  - destruct (validation_cases q r) as [Hv|[e Hv]].
    + rewrite (loadTyped_accepted q r Hv). by apply invariants_getOrLoad.
    + by rewrite (loadTyped_rejected q e r Hv).
  - rewrite clearForSpecs_result. simpl.
    split; [apply registryOk_empty | apply countsOk_empty].
Qed.


(** **** Acquire and release *)

(** X10: in a registry that satisfies the two invariants, a loader
    obtained from a typed constructor can always be released: the
    [unload] of the returned loader returns.  The registry is then
    exactly as it was before the request, unless the request created a
    resident entry. *)
Theorem acquire_then_release (q : TypedRequest) (r : Realm) :
  registryOk (cacheEntries r) ->
  countsOk (cacheEntries r) ->
  validation q r = Normal tt r ->
  typeOfString (typedKey q) = true ->
  exists loader r1 r2,
    loadTyped q r = Normal loader r1 /\
    unload loader r1 = Normal tt r2 /\
    (is_Some (cacheEntries r !! typedKey q) \/ typedResident q = false ->
     cacheEntries r2 = cacheEntries r).
Proof.
  intros Hreg Hcnt Hv Hc. rewrite (loadTyped_accepted q r Hv).
  destruct (cacheEntries r !! typedKey q) as [e|] eqn:Hk.
  - rewrite (getOrLoad_hit _ _ e) by done.
    destruct (Hcnt _ e Hk) as [H0 H1]. pose proof (Hreg _ e Hk) as Hkey.
    eexists _, _, _. split; [done|]. split.
    + apply (unload_keeps (resourceLoader e)
               (setReferenceCount e (referenceCount e + 1))).
      * rewrite Hkey. simpl. apply lookup_insert_eq.
      * simpl. lia.
      * simpl. destruct (keepResident e) eqn:Hres; [by right | left; lia].
    + intros _. simpl. rewrite Hkey, insert_insert_eq.
      apply insert_id. rewrite Hk. f_equal.
      destruct e; unfold setReferenceCount; simpl. f_equal. lia.
  - rewrite getOrLoad_miss by done.
    set (created := {| objectId := nextObjectId r; cacheKey := typedKey q |}).
    destruct (typedResident q) eqn:Hres.
    + eexists _, _, _. split; [done|]. split.
      * apply (unload_keeps created {| referenceCount := 1;
                                       resourceLoader := created;
                                       keepResident := true |});
          simpl; [apply lookup_insert_eq | done | by right].
      * intros [[e He]|Hfalse]; done.
    + eexists _, _, _. split; [done|]. split.
      * apply (unload_last created {| referenceCount := 1;
                                      resourceLoader := created;
                                      keepResident := false |});
          simpl; [apply lookup_insert_eq | done | done].
      * intros _. simpl. rewrite delete_insert_eq. by apply delete_id.
Qed.

(** X11: [get] followed by [unload] with a loader of that key gives back
    the very same realm, for an entry whose count is not negative and is
    at least one unless the entry is resident. *)
Theorem get_then_unload_restores (key : string) (loader : ResourceLoader)
  (entry : CacheEntry) (r : Realm) :
  typeOfString key = true ->
  cacheKey loader = key ->
  cacheEntries r !! key = Some entry ->
  0 <= referenceCount entry ->
  (keepResident entry = false -> 1 <= referenceCount entry) ->
  (let* _ := get key in unload loader) r = Normal tt r.
Proof.
  intros Hc <- Hk H0 H1. unfold bind.
  rewrite (get_present _ entry) by done.
  rewrite (unload_keeps loader
             (setReferenceCount entry (referenceCount entry + 1))).
  - rewrite withEntries_twice. simpl. rewrite insert_insert_eq.
    replace (setReferenceCount
               (setReferenceCount entry (referenceCount entry + 1))
               (referenceCount entry + 1 - 1)) with entry
      by (destruct entry; unfold setReferenceCount; simpl; f_equal; lia).
    rewrite insert_id by done. by rewrite withEntries_same.
  - simpl. apply lookup_insert_eq.
  - simpl. lia.
  - simpl. destruct (keepResident entry) eqn:Hres; [by right | left; lia].
Qed.


(** **** Calls that acquire *)

Lemma onlyAdds_same (r : Realm) : onlyAdds r r.
Proof.
  split.
  - exists []. rewrite app_nil_r. split; [done|].
    intros l. apply not_elem_of_nil.
  - intros key entry Hk. exists entry. repeat split; try done; lia.
Qed.

Lemma onlyAdds_get (key : string) (r : Realm) : onlyAdds r (realmOf (get key r)).
Proof.
  destruct (typeOfString key) eqn:Hc;
    [| rewrite get_rejected by done; apply onlyAdds_same].
  destruct (cacheEntries r !! key) as [e|] eqn:Hk;
    [| rewrite get_absent by done; apply onlyAdds_same].
  rewrite (get_present key e) by done. simpl. split.
  - exists []. simpl. split; [done|]. intros l. apply not_elem_of_nil.
  - intros k entry Hk'. simpl. destruct (decide (key = k)) as [->|Hne].
    + rewrite lookup_insert_eq. assert (e = entry) as -> by congruence.
      eexists. repeat split; simpl; try done; lia.
    + rewrite lookup_insert_ne by done. exists entry.
      repeat split; try done; lia.
Qed.

Lemma onlyAdds_load (options : LoadOptions) (r : Realm) :
  onlyAdds r (realmOf (load options r)).
Proof.
  destruct (typeOfString (cacheKey (load_resourceLoader options))) eqn:Hc;
    [| rewrite load_rejected by done; apply onlyAdds_same].
  destruct (cacheEntries r !! cacheKey (load_resourceLoader options))
    as [e|] eqn:Hk.
  - rewrite (proj1 (load_present options e r Hk)). apply onlyAdds_same.
  - rewrite load_fresh by done. simpl. split.
    + eexists. simpl. split; [done|].
      intros l Hin. by apply list_elem_of_singleton in Hin.
    + intros k entry Hk'. simpl.
      rewrite lookup_insert_ne by congruence.
      exists entry. repeat split; try done; lia.
Qed.

Lemma onlyAdds_getOrLoad (key : string) (resident : bool) (r : Realm) :
  onlyAdds r (realmOf (getOrLoad key resident r)).
Proof.
  destruct (typeOfString key) eqn:Hc;
    [| rewrite getOrLoad_rejected by done; apply onlyAdds_same].
  destruct (cacheEntries r !! key) as [e|] eqn:Hk.
  - rewrite (getOrLoad_hit key resident e) by done. simpl. split.
    + exists []. simpl. split; [done|]. intros l. apply not_elem_of_nil.
    + intros k entry Hk'. simpl. destruct (decide (key = k)) as [->|Hne].
      * rewrite lookup_insert_eq. assert (e = entry) as -> by congruence.
        eexists. repeat split; simpl; try done; lia.
      * rewrite lookup_insert_ne by done. exists entry.
        repeat split; try done; lia.
  - rewrite getOrLoad_miss by done. simpl. split.
    + eexists. simpl. split; [done|].
      intros l Hin. apply elem_of_cons in Hin as [Hin|Hin]; [done|].
      by apply list_elem_of_singleton in Hin.
    + intros k entry Hk'. simpl.
      rewrite lookup_insert_ne by congruence.
      exists entry. repeat split; try done; lia.
Qed.

(** X14: [get], [load] and the typed constructors never release
    anything.  Whatever their outcome, they call [destroy()] on no
    loader, and every entry of the registry is still there after the
    call, with the same loader and [keepResident] and a count that is
    not smaller.  Only [unload] and [clearForSpecs] destroy or remove. *)
Theorem acquiring_calls_never_release (r : Realm) :
  (forall key, onlyAdds r (realmOf (get key r))) /\
  (forall options, onlyAdds r (realmOf (load options r))) /\
  (forall q, onlyAdds r (realmOf (loadTyped q r))).
Proof.
  split; [|split].
  - intros key. apply onlyAdds_get.
  - intros options. apply onlyAdds_load.
  - intros q. destruct (validation_cases q r) as [Hv|[e Hv]].
    + rewrite (loadTyped_accepted q r Hv). apply onlyAdds_getOrLoad.
    + rewrite (loadTyped_rejected q e r Hv). apply onlyAdds_same.
Qed.

(** **** Sequences of acquisitions and releases *)

Lemma mapJs_get_hits (n : nat) (key : string) (entry : CacheEntry)
  (r : Realm) :
  typeOfString key = true ->
  cacheEntries r !! key = Some entry ->
  mapJs get (replicate n key) r =
  Normal (replicate n (Some (resourceLoader entry)))
    (withEntries r
       (<[key := setReferenceCount entry (referenceCount entry + Z.of_nat n)]>
          (cacheEntries r)) []).
Proof.
  intros Hc. revert entry r. induction n as [|n IH]; intros entry r Hk.
  - simpl. unfold ret. rewrite Z.add_0_r, setReferenceCount_same.
    rewrite insert_id by done. by rewrite withEntries_same.
  - change (mapJs get (replicate (S n) key) r)
      with (bind (get key)
              (fun y => bind (mapJs get (replicate n key))
                          (fun ys => ret (y :: ys))) r).
    unfold bind at 1. rewrite (get_present key entry) by done.
    unfold bind.
    rewrite (IH (setReferenceCount entry (referenceCount entry + 1)))
      by (simpl; apply lookup_insert_eq).
    unfold ret. rewrite withEntries_twice. simpl.
    rewrite insert_insert_eq. do 3 f_equal.
    unfold setReferenceCount; simpl. f_equal. lia.
Qed.


Lemma forEach_replicate (n : nat) (loader : ResourceLoader) (r : Realm) :
  forEach (replicate n loader) unload r = repeatJs n (unload loader) r.
Proof.
  revert r. induction n as [|n IH]; intros r; [done|].
  simpl. unfold bind. destruct (unload loader r); [apply IH | done].
Qed.

Lemma repeatJs_unload_all (n : nat) (loader : ResourceLoader)
  (entry : CacheEntry) (r : Realm) :
  cacheEntries r !! cacheKey loader = Some entry ->
  referenceCount entry = Z.of_nat (S n) ->
  keepResident entry = false ->
  repeatJs (S n) (unload loader) r =
  Normal tt
    (withEntries r (delete (cacheKey loader) (cacheEntries r))
       [DestroyCalled loader]).
Proof.
  intros Hk Hrc Hres.
  rewrite repeatJs_last.
  rewrite (repeatJs_unload_counts_down n loader entry r Hk) by lia.
  rewrite (unload_last loader
             (setReferenceCount entry (referenceCount entry - Z.of_nat n)));
    [| simpl; apply lookup_insert_eq | simpl; lia | done].
  rewrite withEntries_twice. simpl. by rewrite delete_insert_eq.
Qed.

(** **** [clearForSpecs] and loaders that release their dependencies *)

Lemma property_None (key : string) (entries : list (string * CacheEntry)) :
  property key entries = None <-> key ∉ map fst entries.
Proof.
  induction entries as [|[k e] rest IH]; simpl.
  - split; [intros _; apply not_elem_of_nil | done].
  - destruct (String.eqb_spec k key) as [->|Hne].
    + split; [done|]. intros Hnot. exfalso. apply Hnot. by left.
    + rewrite IH. split.
      * intros Hnot Hin. apply elem_of_cons in Hin as [Heq|Hin]; [|done].
        by apply Hne.
      * intros Hnot Hin. apply Hnot. by right.
Qed.

Lemma elem_of_deleteProperty (key k : string)
  (entries : list (string * CacheEntry)) :
  k ∈ map fst (deleteProperty key entries) ->
  k ∈ map fst entries /\ k <> key.
Proof.
  induction entries as [|[k0 e] rest IH]; simpl.
  - intros Hin. by apply elem_of_nil in Hin.
  - destruct (String.eqb_spec k0 key) as [->|Hne].
    + intros Hin. destruct (IH Hin) as [Hin' Hk]. split; [by right | done].
    + simpl. intros Hin. apply elem_of_cons in Hin as [->|Hin].
      * split; [by left | done].
      * destruct (IH Hin) as [Hin' Hk]. split; [by right | done].
Qed.

Lemma deleteProperty_absent (key : string)
  (entries : list (string * CacheEntry)) :
  key ∉ map fst entries -> deleteProperty key entries = entries.
Proof.
  induction entries as [|[k e] rest IH]; simpl; [done|].
  intros Hnot. destruct (String.eqb_spec k key) as [->|Hne].
  - exfalso. apply Hnot. by left.
  - rewrite IH; [done|]. intros Hin. apply Hnot. by right.
Qed.

Lemma keys_setProperty (key : string) (entry old : CacheEntry)
  (entries : list (string * CacheEntry)) :
  property key entries = Some old ->
  map fst (setProperty key entry entries) = map fst entries.
Proof.
  induction entries as [|[k e] rest IH]; simpl; [done|].
  destruct (String.eqb_spec k key) as [->|Hne]; [done|].
  intros Hp. simpl. by rewrite IH.
Qed.

(** Calls of [unload], nested or not, add no key to the registry. *)
Lemma releaseEach_keys (release : ResourceLoader -> OrderedRealm -> Outcome)
  (loaders : list ResourceLoader) :
  (forall l s s', release l s = Returned s' ->
     forall k, k ∈ map fst (entriesInOrder s') -> k ∈ map fst (entriesInOrder s)) ->
  forall s s', releaseEach release loaders s = Returned s' ->
    forall k, k ∈ map fst (entriesInOrder s') -> k ∈ map fst (entriesInOrder s).
Proof.
  intros Hrel. induction loaders as [|l rest IH]; intros s s' H k Hk; simpl in H.
  - by injection H as <-.
  - destruct (release l s) as [s1| |] eqn:H1; try done.
    apply (Hrel l s s1 H1). by apply (IH s1 s').
Qed.

Lemma unloadWith_keys (fuel : nat) (loader : ResourceLoader)
  (s s' : OrderedRealm) :
  unloadWith fuel loader s = Returned s' ->
  forall k, k ∈ map fst (entriesInOrder s') -> k ∈ map fst (entriesInOrder s).
Proof.
  revert loader s s'.
  induction fuel as [|fuel IH]; intros loader s s' H k Hk; [done|].
  cbn [unloadWith] in H.
  destruct (property (cacheKey loader) (entriesInOrder s)) as [entry|] eqn:Hp;
    [|done].
  destruct (referenceCount entry =? 0); [done|].
  destruct (_ && _).
  - destruct (releaseEach _ _ _) as [s2| |] eqn:H2; try done.
    injection H as <-. simpl in Hk.
    apply elem_of_deleteProperty in Hk as [Hk _].
    apply (releaseEach_keys _ _ IH _ _ H2) in Hk. simpl in Hk.
    by rewrite (keys_setProperty _ _ _ _ Hp) in Hk.
  - injection H as <-. simpl in Hk.
    by rewrite (keys_setProperty _ _ _ _ Hp) in Hk.
Qed.

Lemma destroyWith_keys (fuel : nat) (loader : ResourceLoader)
  (s s' : OrderedRealm) :
  destroyWith fuel loader s = Returned s' ->
  forall k, k ∈ map fst (entriesInOrder s') -> k ∈ map fst (entriesInOrder s).
Proof.
  unfold destroyWith. intros H k Hk.
  by apply (releaseEach_keys _ _ (unloadWith_keys fuel) _ _ H).
Qed.

(** When the loop returns, no key it went through is left, and no key was
    added. *)
Lemma clearEach_returned (fuel : nat) (keys : list string)
  (s s' : OrderedRealm) :
  clearEach fuel keys s = Returned s' ->
  forall k, k ∈ map fst (entriesInOrder s') ->
    k ∈ map fst (entriesInOrder s) /\ k ∉ keys.
Proof.
  revert s. induction keys as [|key rest IH]; intros s H k Hk; simpl in H.
  - injection H as <-. split; [done | apply not_elem_of_nil].
  - destruct (property key (entriesInOrder s)) as [entry|] eqn:Hp.
    + destruct (destroyWith fuel (resourceLoader entry) s) as [s1| |] eqn:H1;
        try done.
      destruct (IH _ H k Hk) as [Hin Hrest]. simpl in Hin.
      apply elem_of_deleteProperty in Hin as [Hin Hne].
      split; [by apply (destroyWith_keys _ _ _ _ H1)|].
      intros Hin'. apply elem_of_cons in Hin' as [Heq|Hin']; done.
    + destruct (IH _ H k Hk) as [Hin Hrest]. split; [done|].
      intros Hin'. apply elem_of_cons in Hin' as [->|Hin']; [|done].
      by apply property_None in Hp.
Qed.

(** The loop over entries whose loaders have no dependencies. *)
Lemma clearEach_without_dependencies (fuel : nat)
  (entries : list (string * CacheEntry)) (made : list Call) :
  NoDup (map fst entries) ->
  (forall key entry, (key, entry) ∈ entries ->
     dependencies (resourceLoader entry) = []) ->
  clearEach fuel (map fst entries)
    {| entriesInOrder := entries; callsMade := made |} =
  Returned
    {| entriesInOrder := [];
       callsMade :=
         made ++ map (fun kv => DestroyCalled (resourceLoader (snd kv))) entries |}.
Proof.
  revert made. induction entries as [|[k e] rest IH]; intros made Hnd Hdep.
  - simpl. by rewrite app_nil_r.
  - apply NoDup_cons in Hnd as [Hk Hnd].
    cbn [map fst clearEach entriesInOrder property].
    rewrite String.eqb_refl. unfold destroyWith.
    rewrite (Hdep k e) by (by left). cbn [releaseEach].
    unfold deleted, logged. cbn [entriesInOrder callsMade deleteProperty].
    rewrite String.eqb_refl, (deleteProperty_absent k rest Hk).
    rewrite IH; [| done | intros key entry Hin; apply (Hdep key entry); by right].
    cbn [map snd]. by rewrite <- app_assoc.
Qed.

(** X15: when [clearForSpecs] returns, the registry is empty, whatever
    the loaders released in their [destroy()]: every loader a consumer
    still holds is stale, [unload] of it throws "Resource is not in the
    cache", and a second [clearForSpecs] does nothing. *)
Theorem after_clearForSpecs_returned (fuel : nat) (s s' : OrderedRealm) :
  clearForSpecsWith fuel s = Returned s' ->
  entriesInOrder s' = [] /\
  (forall loader n,
     unloadWith (S n) loader s' =
     Threw (DeveloperError
              ("Resource is not in the cache: " +:+ cacheKey loader)) s') /\
  (forall n, clearForSpecsWith n s' = Returned s').
Proof.
  intros H.
  assert (Hempty : entriesInOrder s' = []).
  { destruct (entriesInOrder s') as [|[k e] rest] eqn:Hs'; [done|].
    exfalso.
    destruct (clearEach_returned _ _ _ _ H k) as [Hin Hnot].
    - rewrite Hs'. simpl. by left.
    - done. }
  split; [done|]. split.
  - intros loader n. cbn [unloadWith]. by rewrite Hempty.
  - intros n. unfold clearForSpecsWith. by rewrite Hempty.
Qed.

(** X27: on a registry whose loaders release nothing in [destroy()],
    [clearForSpecs] returns with the registry empty after one call of
    [destroy()], and no other call, on the loader of each entry, in the
    order of the entries, whatever the [referenceCount] and [keepResident]
    of the entries. *)
Theorem clearForSpecs_without_dependencies (fuel : nat) (s : OrderedRealm) :
  NoDup (map fst (entriesInOrder s)) ->
  (forall key entry, (key, entry) ∈ entriesInOrder s ->
     dependencies (resourceLoader entry) = []) ->
  clearForSpecsWith fuel s =
  Returned
    {| entriesInOrder := [];
       callsMade :=
         callsMade s ++
         map (fun kv => DestroyCalled (resourceLoader (snd kv)))
           (entriesInOrder s) |}.
Proof.
  intros Hnd Hdep. unfold clearForSpecsWith. destruct s as [entries made].
  by apply clearEach_without_dependencies.
Qed.

End ResourceCache.

Arguments buffer_resource {Resource} _.
Arguments buffer_keepResident {Resource} _.
Arguments loadExternalBuffer typeOfString {Resource} getExternalBufferCacheKey options _.

(** ** The empty key *)

(** C6: the only test of [get] and [load] on the key is the check of its
    type, which the empty string passes, so the empty key is a key like
    any other.  [get] of the empty string never throws.  When the empty
    key is not in the registry, [get] returns [undefined] and leaves the
    realm as it was, and [load] of a loader whose [cacheKey] is the empty
    string files the loader under that key with [referenceCount] 1 and
    calls [load()] on it. *)
Theorem empty_key_accepted (r : Realm) (id : nat) (resident : option bool) :
  isThrow (get anyString "" r) = false /\
  (cacheEntries r !! "" = None ->
   get anyString "" r = Normal None r /\
   load anyString
     {| load_resourceLoader := {| objectId := id; cacheKey := "" |};
        load_keepResident := resident |} r =
   Normal tt
     (withEntries r
        (<["" := {| referenceCount := 1;
                    resourceLoader := {| objectId := id; cacheKey := "" |};
                    keepResident := defaultValue resident false |}]>
           (cacheEntries r))
        [LoadCalled {| objectId := id; cacheKey := "" |}])).
Proof.
  split.
  - destruct (cacheEntries r !! "") as [entry|] eqn:Hk.
    + by rewrite (get_present anyString "" entry r).
    + by rewrite (get_absent anyString "" r).
  - intros Hk. split.
    + by apply get_absent.
    + by apply (load_fresh anyString
                  {| load_resourceLoader := {| objectId := id; cacheKey := "" |};
                     load_keepResident := resident |} r).
Qed.

(** The empty key is not rejected.  On the empty registry [get] of the
    empty string returns [undefined], and [load] of a loader whose
    [cacheKey] is the empty string returns with the loader registered
    under it. *)
Lemma empty_key_not_rejected :
  get anyString "" emptyRealm = Normal None emptyRealm /\
  isThrow
    (load anyString
       {| load_resourceLoader := {| objectId := 0; cacheKey := "" |};
          load_keepResident := None |} emptyRealm) = false /\
  cacheEntries
    (realmOf
       (load anyString
          {| load_resourceLoader := {| objectId := 0; cacheKey := "" |};
             load_keepResident := None |} emptyRealm)) !! "" =
  Some {| referenceCount := 1;
          resourceLoader := {| objectId := 0; cacheKey := "" |};
          keepResident := false |}.
Proof.
  split; [reflexivity|]. split; [reflexivity|].
  reflexivity.
Qed.

(** ** [clearForSpecs] after a dependency was visited first *)

(** C7: [clearForSpecs] does not empty every registry.  Two buffer views
    share one buffer ([twoViews]); [unload] of the first view destroys
    it, releases its reference on the buffer and leaves the buffer ahead
    of the second view ([secondViewLeft]).  [clearForSpecs] then calls
    [destroy()] on the buffer and deletes its key, and calls [destroy()]
    on the second view, which calls [unload] on the buffer: it throws
    "Resource is not in the cache", out of [clearForSpecs], before the
    [delete] of the key of the view, which stays registered. *)
Theorem clearForSpecs_dependency_first (fuel : nat) :
  unloadWith sampleDependencies (S (S fuel)) viewV twoViews =
  Returned secondViewLeft /\
  clearForSpecsWith sampleDependencies (S fuel) secondViewLeft =
  Threw (DeveloperError ("Resource is not in the cache: " +:+ bufferKey))
    {| entriesInOrder := [(viewKeyW, viewEntry viewW)];
       callsMade :=
         callsMade secondViewLeft ++ [DestroyCalled bufferA; DestroyCalled viewW] |}.
Proof. split; reflexivity. Qed.

(** ** The theorems at the sample realms *)

Lemma loadExternalBuffer_N_times_witness :
  let loader := {| objectId := 0; cacheKey := bufferKey |} in
  mapJs (loadExternalBuffer anyString urlBufferKey)
    [ {| buffer_resource := "https://example.com/a.bin";
         buffer_keepResident := Some true |};
      {| buffer_resource := "https://example.com/a.bin";
         buffer_keepResident := None |};
      {| buffer_resource := "https://example.com/a.bin";
         buffer_keepResident := Some false |} ]
    emptyRealm =
  Normal [loader; loader; loader]
    {| cacheEntries :=
         <[bufferKey := {| referenceCount := 3;
                           resourceLoader := loader;
                           keepResident := true |}]> ∅;
       calls := [Constructed loader; LoadCalled loader];
       nextObjectId := 1 |}.
Proof.
  intros loader.
  refine (loadExternalBuffer_N_times anyString string urlBufferKey
            {| buffer_resource := "https://example.com/a.bin";
               buffer_keepResident := Some true |}
            [ {| buffer_resource := "https://example.com/a.bin";
                 buffer_keepResident := None |};
              {| buffer_resource := "https://example.com/a.bin";
                 buffer_keepResident := Some false |} ]
            bufferKey emptyRealm _ _ _).
  - repeat constructor.
  - reflexivity.
  - reflexivity.
Defined.


Lemma load_duplicate_rejected_witness :
  exists e,
    load anyString
      {| load_resourceLoader := bufferB; load_keepResident := Some true |}
      sharedRealm = Throw e sharedRealm /\
    (anyString bufferKey = true ->
     e = DeveloperError
           ("Resource with this cacheKey is already in the cache: " +:+ bufferKey)).
Proof.
  apply (load_duplicate_rejected anyString
           {| load_resourceLoader := bufferB; load_keepResident := Some true |}
           (bufferEntry 3) sharedRealm).
  reflexivity.
Defined.

Lemma unload_contract_violation_witness :
  (exists message,
     unload bufferA emptyRealm = Throw (DeveloperError message) emptyRealm) /\
  (exists message,
     unload schemaS releasedRealm = Throw (DeveloperError message) releasedRealm).
Proof.
  split.
  - apply (unload_contract_violation bufferA emptyRealm).
    left. reflexivity.
  - apply (unload_contract_violation schemaS releasedRealm).
    right. exists (schemaEntry 0). split; reflexivity.
Defined.


Lemma sharedRealm_registryOk : registryOk (cacheEntries sharedRealm).
Proof.
  repeat apply registryOk_insert; try reflexivity. apply registryOk_empty.
Qed.

Lemma empty_key_accepted_witness :
  get anyString "" emptyRealm = Normal None emptyRealm /\
  load anyString
    {| load_resourceLoader := {| objectId := 0; cacheKey := "" |};
       load_keepResident := None |} emptyRealm =
  Normal tt
    (withEntries emptyRealm
       (<["" := {| referenceCount := 1;
                   resourceLoader := {| objectId := 0; cacheKey := "" |};
                   keepResident := false |}]> ∅)
       [LoadCalled {| objectId := 0; cacheKey := "" |}]).
Proof.
  apply (proj2 (empty_key_accepted emptyRealm 0 None)). reflexivity.
Defined.

Lemma get_absent_no_mutation_witness :
  realmOf (get anyString "external-buffer:https://example.com/b.bin"
             sharedRealm) = sharedRealm /\
  get anyString "external-buffer:https://example.com/b.bin" sharedRealm =
    Normal None sharedRealm.
Proof.
  destruct (get_absent_no_mutation anyString
              "external-buffer:https://example.com/b.bin" sharedRealm)
    as [Hsame Hret].
  - reflexivity.
  - split.
    + exact Hsame.
    + apply Hret. reflexivity.
Defined.


Lemma resident_entry_reacquired_witness :
  exists r1,
    get anyString schemaKey releasedRealm = Normal (Some schemaS) r1 /\
    cacheEntries r1 =
      <[schemaKey := schemaEntry 1]> (cacheEntries releasedRealm) /\
    calls r1 = calls releasedRealm /\
    forall loader, cacheKey loader = schemaKey ->
      exists r2,
        unload loader r1 = Normal tt r2 /\
        cacheEntries r2 =
          <[schemaKey := schemaEntry 0]> (cacheEntries releasedRealm) /\
        calls r2 = calls releasedRealm /\
        unload loader r2 =
        Throw (DeveloperError "Cannot unload resource that has no references.")
          r2.
Proof.
  apply (resident_entry_reacquired anyString schemaKey (schemaEntry 0)
           releasedRealm).
  - reflexivity.
  - reflexivity.
  - reflexivity.
  - reflexivity.
Defined.

(** The runs of the specification's scenario: two consumers request the
    same buffer, then release it one after the other. *)
Example two_consumers_scenario :
  let o := {| buffer_resource := "https://example.com/a.bin";
              buffer_keepResident := None |} in
  let run :=
    let* l1 := loadExternalBuffer anyString urlBufferKey o in
    let* l2 := loadExternalBuffer anyString urlBufferKey o in
    let* _ := unload l1 in
    let* alive := readEntry bufferKey in
    let* _ := unload l2 in
    let* gone := readEntry bufferKey in
    ret (l1, l2, referenceCount <$> alive, referenceCount <$> gone) in
  exists r,
    run emptyRealm = Normal (bufferA, bufferA, Some 1, None) r /\
    calls r = [Constructed bufferA; LoadCalled bufferA; DestroyCalled bufferA] /\
    cacheEntries r = ∅.
Proof. eexists. vm_compute. repeat split. Qed.

(** ** Tile content: properties *)

Section TileContentProperties.

Variable Number : Type.
Variable getMagic : list Byte.byte -> string.
Variable isBinaryFormat : string -> bool.
Variable EXTERNAL_TILESET : string.
Variable GLTF : string.
Variable getJsonFromTypedArray : list Byte.byte -> option (@Json Number).

Local Abbreviation preprocess :=
  (preproces3DTileContent getMagic isBinaryFormat EXTERNAL_TILESET GLTF
     getJsonFromTypedArray).

(** The content identifier after the renaming of [glTF]. *)
Local Abbreviation identifier bytes :=
  (if String.eqb (getMagic bytes) "glTF" then "glb" else getMagic bytes).

Lemma identifier_not_glTF (bytes : list Byte.byte) :
  identifier bytes <> "glTF".
Proof.
  destruct (String.eqb_spec (getMagic bytes) "glTF") as [Heq|Hne]; [done|].
  exact Hne.
Qed.

(** X18: every result of [preproces3DTileContent] carries exactly one
    payload.  A binary result holds the bytes it was given, unchanged,
    and its content type is a binary format and never the magic [glTF]
    itself; a JSON result holds the value the parser returned, and its
    content type is one of the two JSON content types. *)
Theorem preprocessed_content_shape (bytes : list Byte.byte)
  (result : PreprocessedContent Number) :
  preproces3DTileContent getMagic isBinaryFormat EXTERNAL_TILESET GLTF
    getJsonFromTypedArray bytes = inr result ->
  (binaryPayload result = Some bytes /\
   jsonPayload result = None /\
   isBinaryFormat (contentType result) = true /\
   contentType result <> "glTF") \/
  (binaryPayload result = None /\
   jsonPayload result = getJsonFromTypedArray bytes /\
   is_Some (jsonPayload result) /\
   (contentType result = EXTERNAL_TILESET \/ contentType result = GLTF)).
Proof.
  unfold preproces3DTileContent, getJsonContent.
  destruct (isBinaryFormat (identifier bytes)) eqn:Hbin.
  - intros [= <-]. left. simpl.
    repeat split; try done. apply identifier_not_glTF.
  - destruct (getJsonFromTypedArray bytes) as [json|]; [|done].
    destruct (getProperty json "geometricError") as [| |v] eqn:Hg; [done| |].
    + simpl. destruct (getProperty json "asset") as [| |a]; [done|done|].
      destruct a; try done; intros [= <-]; right; simpl;
        (split; [done|]; split; [done|]; split; [by eexists | by right]).
    + destruct v; simpl;
        try (intros [= <-]; right; simpl;
             split; [done|]; split; [done|]; split; [by eexists | by left]).
      destruct (getProperty json "asset") as [| |a]; [done|done|].
      destruct a; try done; intros [= <-]; right; simpl;
        (split; [done|]; split; [done|]; split; [by eexists | by right]).
Qed.

(** X19: a payload whose magic is [glTF] is reported with the content
    type [glb] when [glb] is a binary format, whether or not [glTF]
    itself is one, and the parser is not consulted. *)
Theorem glTF_magic_is_glb (bytes : list Byte.byte) :
  getMagic bytes = "glTF" ->
  isBinaryFormat "glb" = true ->
  preproces3DTileContent getMagic isBinaryFormat EXTERNAL_TILESET GLTF
    getJsonFromTypedArray bytes =
  inr {| contentType := "glb";
         binaryPayload := Some bytes;
         jsonPayload := None |}.
Proof.
  intros Hmagic Hglb. unfold preproces3DTileContent.
  rewrite Hmagic. simpl. by rewrite Hglb.
Qed.

(** X20: for a payload that is not binary and parses to an object, the
    test on [geometricError] comes first: with a [geometricError] that
    is not [null] the content is an external tileset, whatever [asset]
    is; otherwise, with an [asset] that is not [null], it is a glTF;
    otherwise the call throws "Invalid tile content.". *)
Theorem json_object_classification (bytes : list Byte.byte)
  (members : list (string * @Json Number)) :
  isBinaryFormat (identifier bytes) = false ->
  getJsonFromTypedArray bytes = Some (JsonObject members) ->
  let present name :=
    match member name members with
    | Some JsonNull | None => false
    | Some _ => true
    end in
  preproces3DTileContent getMagic isBinaryFormat EXTERNAL_TILESET GLTF
    getJsonFromTypedArray bytes =
  if present "geometricError" then
    inr {| contentType := EXTERNAL_TILESET;
           binaryPayload := None;
           jsonPayload := Some (JsonObject members) |}
  else if present "asset" then
    inr {| contentType := GLTF;
           binaryPayload := None;
           jsonPayload := Some (JsonObject members) |}
  else inl (RuntimeError "Invalid tile content.").
Proof.
  intros Hbin Hparse present. subst present.
  unfold preproces3DTileContent, getJsonContent.
  rewrite Hbin, Hparse. simpl.
  destruct (member "geometricError" members) as [[| | | | |]|];
    simpl; try reflexivity;
    destruct (member "asset" members) as [[| | | | |]|]; reflexivity.
Qed.

(** X21: for a payload that is not binary, the call throws the
    [RuntimeError] "Invalid tile content." when the parser throws and
    when it returns a boolean, a number, a string or an array; when the
    parser returns [null], the read of [json.geometricError] throws a
    [TypeError] instead. *)
Theorem invalid_tile_content (bytes : list Byte.byte) :
  isBinaryFormat (identifier bytes) = false ->
  (getJsonFromTypedArray bytes = None ->
   preproces3DTileContent getMagic isBinaryFormat EXTERNAL_TILESET GLTF
     getJsonFromTypedArray bytes =
   inl (RuntimeError "Invalid tile content.")) /\
  (forall json,
     getJsonFromTypedArray bytes = Some json ->
     match json with
     | JsonNull | JsonObject _ => False
     | _ => True
     end ->
     preprocess bytes = inl (RuntimeError "Invalid tile content.")) /\
  (getJsonFromTypedArray bytes = Some JsonNull ->
   preprocess bytes = inl TypeError).
Proof.
  intros Hbin. unfold preproces3DTileContent, getJsonContent.
  rewrite Hbin. split; [|split].
  - by intros ->.
  - intros json -> Hkind. by destruct json.
  - by intros ->.
Qed.

End TileContentProperties.

(** ** Packing an ellipsoid: properties *)

Lemma lookup_setCell {Number : Type} (i : nat) (value : option Number)
  (array : gmap nat Number) (j : nat) :
  setCell i value array !! j = if decide (i = j) then value else array !! j.
Proof.
  unfold setCell. destruct value as [n|]; case_decide as Hij; subst.
  - apply lookup_insert_eq.
  - by apply lookup_insert_ne.
  - apply lookup_delete_eq.
  - by apply lookup_delete_ne.
Qed.

Section EllipsoidGeometryProperties.

Variable Number : Type.
Variable Cartesian3 : Type.
Variable VertexFormat : Type.
Variable round : Number -> Number.
Variable lessThanThree : Number -> bool.
Variable isMinusOne : Number -> bool.
Variable zero : Number.
Variable sixtyFour : Number.
Variable minusOne : Number.
Variable PI : Number.
Variable TWO_PI : Number.
Variable Cartesian3_packable : Packable Number Cartesian3.
Variable VertexFormat_packable : Packable Number VertexFormat.
Variable defaultRadii : Cartesian3.
Variable VertexFormat_DEFAULT : VertexFormat.

Hypothesis Cartesian3_ok : PackableOk Cartesian3_packable.
Hypothesis VertexFormat_ok : PackableOk VertexFormat_packable.

Local Abbreviation Geometry := (EllipsoidGeometry Number Cartesian3 VertexFormat).
Local Abbreviation packG :=
  (pack Number Cartesian3 VertexFormat minusOne Cartesian3_packable
     VertexFormat_packable).
Local Abbreviation unpackG :=
  (unpack Number Cartesian3 VertexFormat round lessThanThree isMinusOne zero
     sixtyFour PI TWO_PI Cartesian3_packable VertexFormat_packable defaultRadii
     VertexFormat_DEFAULT).
Local Abbreviation newG :=
  (newEllipsoidGeometry Number Cartesian3 VertexFormat round lessThanThree zero
     sixtyFour PI TWO_PI defaultRadii VertexFormat_DEFAULT).
Local Abbreviation unpackedG :=
  (unpacked Number Cartesian3 VertexFormat isMinusOne minusOne).
Local Abbreviation lengthG :=
  (EllipsoidGeometry_packedLength Number Cartesian3 VertexFormat
     Cartesian3_packable VertexFormat_packable).
Local Abbreviation lengthC := (packedLength Cartesian3_packable).
Local Abbreviation lengthV := (packedLength VertexFormat_packable).

(** The cells of a packed geometry, part by part. *)
Lemma pack_lookup_outside (value : Geometry) (array : gmap nat Number)
  (i j : nat) :
  (j < i \/ i + lengthG <= j)%nat ->
  packG value array (Some i) !! j = array !! j.
Proof.
  unfold EllipsoidGeometry_packedLength, pack. cbn [defaultValue]. intros Hj.
  repeat (rewrite lookup_setCell; case_decide; [lia|]).
  rewrite (proj1 VertexFormat_ok) by lia.
  rewrite (proj1 Cartesian3_ok) by lia.
  by rewrite (proj1 Cartesian3_ok) by lia.
Qed.

Lemma pack_lookup_radii (value : Geometry) (array : gmap nat Number)
  (i j : nat) :
  (i <= j < i + lengthC)%nat ->
  packG value array (Some i) !! j =
  packInto Cartesian3_packable (_radii _ _ _ value) array i !! j.
Proof.
  unfold pack. cbn [defaultValue]. intros Hj.
  repeat (rewrite lookup_setCell; case_decide; [lia|]).
  rewrite (proj1 VertexFormat_ok) by lia.
  by rewrite (proj1 Cartesian3_ok) by lia.
Qed.

Lemma pack_lookup_innerRadii (value : Geometry) (array : gmap nat Number)
  (i j : nat) :
  (i + lengthC <= j < i + lengthC + lengthC)%nat ->
  packG value array (Some i) !! j =
  packInto Cartesian3_packable (_innerRadii _ _ _ value)
    (packInto Cartesian3_packable (_radii _ _ _ value) array i)
    (i + lengthC) !! j.
Proof.
  unfold pack. cbn [defaultValue]. intros Hj.
  repeat (rewrite lookup_setCell; case_decide; [lia|]).
  by rewrite (proj1 VertexFormat_ok) by lia.
Qed.

Lemma pack_lookup_vertexFormat (value : Geometry) (array : gmap nat Number)
  (i j : nat) :
  (i + lengthC + lengthC <= j < i + lengthC + lengthC + lengthV)%nat ->
  packG value array (Some i) !! j =
  packInto VertexFormat_packable (_vertexFormat _ _ _ value)
    (packInto Cartesian3_packable (_innerRadii _ _ _ value)
       (packInto Cartesian3_packable (_radii _ _ _ value) array i)
       (i + lengthC))
    (i + lengthC + lengthC) !! j.
Proof.
  unfold pack. cbn [defaultValue]. intros Hj.
  by repeat (rewrite lookup_setCell; case_decide; [lia|]).
Qed.

Lemma pack_lookup_numbers (value : Geometry) (array : gmap nat Number)
  (i : nat) :
  let s := (i + lengthC + lengthC + lengthV)%nat in
  packG value array (Some i) !! s = _minimumClock _ _ _ value /\
  packG value array (Some i) !! (s + 1)%nat = _maximumClock _ _ _ value /\
  packG value array (Some i) !! (s + 2)%nat = _minimumCone _ _ _ value /\
  packG value array (Some i) !! (s + 3)%nat = _maximumCone _ _ _ value /\
  packG value array (Some i) !! (s + 4)%nat = _stackPartitions _ _ _ value /\
  packG value array (Some i) !! (s + 5)%nat = _slicePartitions _ _ _ value /\
  packG value array (Some i) !! (s + 6)%nat =
    Some (defaultValue (_offsetAttribute _ _ _ value) minusOne).
Proof.
  intros s. subst s. unfold pack. cbn [defaultValue].
  repeat split;
    repeat (rewrite lookup_setCell; case_decide;
            [first [done | lia] | try lia]).
Qed.

(** [unpack] into a given object reads a packed geometry back from any
    array that holds its cells. *)
Lemma unpack_window (value result : Geometry) (array packed : gmap nat Number)
  (i : nat) :
  (forall j, (i <= j < i + lengthG)%nat ->
             packed !! j = packG value array (Some i) !! j) ->
  unpackG packed (Some i) (Some result) =
  inr (unpackedG value (_workerName _ _ _ result)).
Proof.
  intros Hwin. unfold EllipsoidGeometry_packedLength in Hwin.
  destruct (pack_lookup_numbers value array i)
    as (H0 & H1 & H2 & H3 & H4 & H5 & H6).
  unfold unpack, unpacked. cbn [defaultValue].
  rewrite !Hwin by lia. rewrite H0, H1, H2, H3, H4, H5, H6.
  rewrite (proj2 Cartesian3_ok (_radii _ _ _ value) array packed i).
  2: { intros j Hj. rewrite Hwin by lia. by apply pack_lookup_radii. }
  rewrite (proj2 Cartesian3_ok (_innerRadii _ _ _ value)
             (packInto Cartesian3_packable (_radii _ _ _ value) array i)
             packed (i + lengthC)%nat).
  2: { intros j Hj. rewrite Hwin by lia. by apply pack_lookup_innerRadii. }
  rewrite (proj2 VertexFormat_ok (_vertexFormat _ _ _ value)
             (packInto Cartesian3_packable (_innerRadii _ _ _ value)
                (packInto Cartesian3_packable (_radii _ _ _ value) array i)
                (i + lengthC)%nat)
             packed (i + lengthC + lengthC)%nat).
  2: { intros j Hj. rewrite Hwin by lia. by apply pack_lookup_vertexFormat. }
  reflexivity.
Qed.

(** X22: [unpack] into a given object undoes [pack]: from the array that
    [pack] filled at [startingIndex], [unpack] at the same index returns
    every field of the packed geometry, the worker name of the object
    given being kept.  The offset attribute comes back as it was unless
    it was the number [-1], which [pack] also writes for [undefined] and
    [unpack] reads as [undefined]. *)
Theorem pack_unpack_round_trip (value result : Geometry)
  (array : gmap nat Number) (i : nat) :
  isMinusOne minusOne = true ->
  let back := unpackG (packG value array (Some i)) (Some i) (Some result) in
  (match _offsetAttribute _ _ _ value with
   | Some n => isMinusOne n = false
   | None => True
   end ->
   back =
   inr (withWorkerName Number Cartesian3 VertexFormat value
          (_workerName _ _ _ result))) /\
  (forall n, _offsetAttribute _ _ _ value = Some n -> isMinusOne n = true ->
     exists lost,
       back = inr lost /\ _offsetAttribute _ _ _ lost = None).
Proof.
  intros Hminus back. subst back.
  rewrite (unpack_window value result array) by done.
  unfold unpacked, withWorkerName, unpackedOffsetAttribute. split.
  - destruct (_offsetAttribute _ _ _ value) as [n|]; simpl.
    + by intros ->.
    + by rewrite Hminus.
  - intros n -> Hn. eexists. split; [done|]. simpl. by rewrite Hn.
Qed.

(** The cells that [pack] writes hold what it wrote, whatever the array
    held before. *)
Lemma pack_lookup_inside (value : Geometry) (array array' : gmap nat Number)
  (i j : nat) :
  PackableFills Cartesian3_packable ->
  PackableFills VertexFormat_packable ->
  (i <= j < i + lengthG)%nat ->
  packG value array (Some i) !! j = packG value array' (Some i) !! j.
Proof.
  intros Hc Hv Hj. unfold EllipsoidGeometry_packedLength in Hj.
  destruct (decide (j < i + lengthC)%nat) as [H1|H1].
  - rewrite (pack_lookup_radii value array i j),
      (pack_lookup_radii value array' i j) by lia.
    apply Hc. lia.
  - destruct (decide (j < i + lengthC + lengthC)%nat) as [H2|H2].
    + rewrite (pack_lookup_innerRadii value array i j),
        (pack_lookup_innerRadii value array' i j) by lia.
      apply Hc. lia.
    + destruct (decide (j < i + lengthC + lengthC + lengthV)%nat) as [H3|H3].
      * rewrite (pack_lookup_vertexFormat value array i j),
          (pack_lookup_vertexFormat value array' i j) by lia.
        apply Hv. lia.
      * destruct (pack_lookup_numbers value array i)
          as (A0 & A1 & A2 & A3 & A4 & A5 & A6).
        destruct (pack_lookup_numbers value array' i)
          as (B0 & B1 & B2 & B3 & B4 & B5 & B6).
        assert (Hcases :
                  let s := (i + lengthC + lengthC + lengthV)%nat in
                  j = s \/ j = (s + 1)%nat \/ j = (s + 2)%nat \/
                  j = (s + 3)%nat \/ j = (s + 4)%nat \/ j = (s + 5)%nat \/
                  j = (s + 6)%nat) by (cbn zeta; lia).
        cbn zeta in Hcases.
        destruct Hcases as [->|[->|[->|[->|[->|[->| ->]]]]]]; congruence.
Qed.

(** X23: [pack] writes the [EllipsoidGeometry.packedLength] cells from
    [startingIndex] (0 when it is not given) on, and no other.  Every
    cell outside them is as it was.  Every cell among them holds what
    [pack] put there, whatever the array held before, given that
    [Cartesian3.pack] and [VertexFormat.pack] write all their cells.  The
    last seven hold the two clocks, the two cones, the two partitions and
    the offset attribute, with [-1] for an offset attribute that is
    [undefined]. *)
Theorem pack_writes_packedLength_cells (value : Geometry)
  (array array' : gmap nat Number) (startingIndex : option nat) (j : nat) :
  let i := defaultValue startingIndex 0%nat in
  let numbers :=
    (i + packedLength Cartesian3_packable + packedLength Cartesian3_packable
     + packedLength VertexFormat_packable)%nat in
  let packed :=
    pack Number Cartesian3 VertexFormat minusOne Cartesian3_packable
      VertexFormat_packable value array startingIndex in
  PackableFills Cartesian3_packable ->
  PackableFills VertexFormat_packable ->
  ((j < i \/
    i + EllipsoidGeometry_packedLength Number Cartesian3 VertexFormat
          Cartesian3_packable VertexFormat_packable <= j)%nat ->
   packed !! j = array !! j) /\
  ((i <= j < i + EllipsoidGeometry_packedLength Number Cartesian3 VertexFormat
                  Cartesian3_packable VertexFormat_packable)%nat ->
   packed !! j =
   pack Number Cartesian3 VertexFormat minusOne Cartesian3_packable
     VertexFormat_packable value array' startingIndex !! j) /\
  packed !! numbers = _minimumClock _ _ _ value /\
  packed !! (numbers + 1)%nat = _maximumClock _ _ _ value /\
  packed !! (numbers + 2)%nat = _minimumCone _ _ _ value /\
  packed !! (numbers + 3)%nat = _maximumCone _ _ _ value /\
  packed !! (numbers + 4)%nat = _stackPartitions _ _ _ value /\
  packed !! (numbers + 5)%nat = _slicePartitions _ _ _ value /\
  packed !! (numbers + 6)%nat =
    Some (defaultValue (_offsetAttribute _ _ _ value) minusOne).
Proof.
  intros i numbers packed Hc Hv. subst i numbers packed.
  assert (Hsome : forall s,
            pack Number Cartesian3 VertexFormat minusOne Cartesian3_packable
              VertexFormat_packable value array startingIndex =
            packG value array (Some (defaultValue startingIndex 0%nat)) /\
            pack Number Cartesian3 VertexFormat minusOne Cartesian3_packable
              VertexFormat_packable value s startingIndex =
            packG value s (Some (defaultValue startingIndex 0%nat))).
  { intros s. by destruct startingIndex. }
  rewrite (proj1 (Hsome array)), (proj2 (Hsome array')).
  split; [|split].
  - apply pack_lookup_outside.
  - by apply pack_lookup_inside.
  - apply pack_lookup_numbers.
Qed.

(** X24: two geometries packed one after the other, the second
    [EllipsoidGeometry.packedLength] cells after the first, do not
    overlap: each is unpacked from its own index. *)
Theorem packed_side_by_side (first second result : Geometry)
  (array : gmap nat Number) (i : nat) :
  let packed :=
    packG second (packG first array (Some i)) (Some (i + lengthG)%nat) in
  unpackG packed (Some i) (Some result) =
    inr (unpacked Number Cartesian3 VertexFormat isMinusOne minusOne first
           (_workerName _ _ _ result)) /\
  unpackG packed (Some (i + lengthG)%nat) (Some result) =
    inr (unpacked Number Cartesian3 VertexFormat isMinusOne minusOne second
           (_workerName _ _ _ result)).
Proof.
  intros packed. subst packed. split.
  - apply (unpack_window first result array). intros j Hj.
    apply pack_lookup_outside. lia.
  - by apply (unpack_window second result (packG first array (Some i))).
Qed.

(** X25: a geometry made by the constructor survives [pack] followed by
    [unpack] without a result object, which calls the constructor again
    on what it read: rounding the rounded partitions changes nothing,
    so the tests of the constructor pass again and the same geometry
    comes back.  The offset attribute is not the number [-1]. *)
Theorem unpack_constructed (options : EllipsoidOptions Number Cartesian3 VertexFormat)
  (geometry : Geometry) (array : gmap nat Number) (i : nat) :
  (forall x, round (round x) = round x) ->
  isMinusOne minusOne = true ->
  (forall n, offsetAttribute _ _ _ options = Some n -> isMinusOne n = false) ->
  newEllipsoidGeometry Number Cartesian3 VertexFormat round lessThanThree zero
    sixtyFour PI TWO_PI defaultRadii VertexFormat_DEFAULT options =
  inr geometry ->
  unpackG (packG geometry array (Some i)) (Some i) None = inr geometry.
Proof.
  intros Hround Hminus Hoffset Hnew.
  pose proof (unpack_window geometry geometry array
                (packG geometry array (Some i)) i (fun j _ => eq_refl)) as Hwin.
  unfold unpack in *. cbn [defaultValue] in *.
  injection Hwin as -> -> -> -> -> -> -> -> -> ->.
  unfold newEllipsoidGeometry in Hnew.
  destruct (lessThanThree
              (round (defaultValue (slicePartitions _ _ _ options) sixtyFour)))
    eqn:Hslice; [done|].
  destruct (lessThanThree
              (round (defaultValue (stackPartitions _ _ _ options) sixtyFour)))
    eqn:Hstack; [done|].
  injection Hnew as <-.
  unfold newEllipsoidGeometry, unpacked, unpackedOffsetAttribute. simpl.
  rewrite !Hround, Hslice, Hstack.
  destruct (offsetAttribute _ _ _ options) as [n|] eqn:Ho; simpl.
  - by rewrite (Hoffset n).
  - by rewrite Hminus.
Qed.

End EllipsoidGeometryProperties.

(** ** The unit ellipsoid: properties *)

(** X26: [getUnitEllipsoid] computes the unit ellipsoid once.  Starting
    with the variable unset, N >= 1 calls all return the geometry that
    [createGeometry] returned, and [createGeometry] was called once; if
    [createGeometry] returns [undefined], nothing is kept and every call
    calls it again. *)
Theorem getUnitEllipsoid_computes_once {Geometry : Type}
  (createUnitGeometry : option Geometry) (n : nat) :
  let start := {| unitEllipsoidGeometry := None; createGeometryCalls := 0 |} in
  (forall geometry, createUnitGeometry = Some geometry ->
     getUnitEllipsoidTimes createUnitGeometry (S n) start =
     (replicate (S n) (Some geometry),
      {| unitEllipsoidGeometry := Some geometry; createGeometryCalls := 1 |})) /\
  (createUnitGeometry = None ->
     getUnitEllipsoidTimes createUnitGeometry n start =
     (replicate n None,
      {| unitEllipsoidGeometry := None; createGeometryCalls := n |})).
Proof.
  intros start. split.
  - intros geometry ->.
    assert (Hkept : forall m calls,
              getUnitEllipsoidTimes (Some geometry) m
                {| unitEllipsoidGeometry := Some geometry;
                   createGeometryCalls := calls |} =
              (replicate m (Some geometry),
               {| unitEllipsoidGeometry := Some geometry;
                  createGeometryCalls := calls |})).
    { induction m as [|m IH]; intros calls; [done|].
      simpl. unfold getUnitEllipsoid. simpl. by rewrite IH. }
    simpl. unfold getUnitEllipsoid. simpl. by rewrite Hkept.
  - intros ->. subst start.
    assert (Hagain : forall m calls,
              getUnitEllipsoidTimes (@None Geometry) m
                {| unitEllipsoidGeometry := None;
                   createGeometryCalls := calls |} =
              (replicate m None,
               {| unitEllipsoidGeometry := None;
                  createGeometryCalls := (calls + m)%nat |})).
    { induction m as [|m IH]; intros calls.
      - simpl. by rewrite Nat.add_0_r.
      - simpl. unfold getUnitEllipsoid. simpl. rewrite IH.
        do 2 f_equal. lia. }
    by rewrite Hagain.
Qed.

(** ** The added theorems at sample inputs *)

Arguments RequestSchema {Resource Schema Gltf Draco TextureInfo TypedArray} options.
Arguments RequestEmbeddedBuffer {Resource Schema Gltf Draco TextureInfo TypedArray} options.
Arguments RequestExternalBuffer {Resource Schema Gltf Draco TextureInfo TypedArray} options.
Arguments RequestGltf {Resource Schema Gltf Draco TextureInfo TypedArray} options.
Arguments RequestBufferView {Resource Schema Gltf Draco TextureInfo TypedArray} options.
Arguments RequestDraco {Resource Schema Gltf Draco TextureInfo TypedArray} options.
Arguments RequestVertexBuffer {Resource Schema Gltf Draco TextureInfo TypedArray} options.
Arguments RequestIndexBuffer {Resource Schema Gltf Draco TextureInfo TypedArray} options.
Arguments RequestImage {Resource Schema Gltf Draco TextureInfo TypedArray} options.
Arguments RequestTexture {Resource Schema Gltf Draco TextureInfo TypedArray} options.
Arguments Basic {Resource Schema Gltf Draco TextureInfo TypedArray} q.
Arguments Typed {Resource Schema Gltf Draco TextureInfo TypedArray} q.
Arguments ClearForSpecs {Resource Schema Gltf Draco TextureInfo TypedArray}.

(** The cache with the sample key derivers, the descriptors being names,
    with the check of the type on keys, checks that reject [undefined],
    and a call of [Check.typeOf.boolean] that throws for every value. *)
Local Abbreviation sampleRequest := (TypedRequest string string string string string string).

Local Abbreviation sampleLoadTyped :=
  (loadTyped anyString string urlBufferKey string string string string
     string sampleSchemaKey sampleEmbeddedBufferKey sampleGltfKey
     sampleBufferViewKey sampleDracoKey sampleVertexBufferKey
     sampleIndexBufferKey sampleImageKey sampleTextureKey false false false
     false (fun d : string => d)).

Local Abbreviation sampleKey :=
  (typedKey string urlBufferKey string string string string string
     sampleSchemaKey sampleEmbeddedBufferKey sampleGltfKey sampleBufferViewKey
     sampleDracoKey sampleVertexBufferKey sampleIndexBufferKey sampleImageKey
     sampleTextureKey).

Local Abbreviation sampleValidation :=
  (validation string string string string string string false false false
     false (fun d : string => d)).

Local Abbreviation sampleActAll :=
  (actAll anyString string urlBufferKey string string string string
     string sampleSchemaKey sampleEmbeddedBufferKey sampleGltfKey
     sampleBufferViewKey sampleDracoKey sampleVertexBufferKey
     sampleIndexBufferKey sampleImageKey sampleTextureKey false false false
     false (fun d : string => d)).

Local Abbreviation imageRequest formats resident :=
  {| image_gltf := "model"; image_imageId := 2;
     image_gltfResource := "https://example.com/model.gltf";
     image_baseResource := "https://example.com/";
     image_supportedImageFormats := formats;
     image_keepResident := resident |}.

Local Abbreviation imageKey := "image:https://example.com/model.gltf-2".

Local Abbreviation viewRequest :=
  {| view_gltf := "model"; view_bufferViewId := 3;
     view_gltfResource := "https://example.com/model.gltf";
     view_baseResource := "https://example.com/";
     view_keepResident := None |}.

Local Abbreviation viewRequestWith resident :=
  {| view_gltf := "model"; view_bufferViewId := 3;
     view_gltfResource := "https://example.com/model.gltf";
     view_baseResource := "https://example.com/";
     view_keepResident := resident |}.

Local Abbreviation viewKey := "buffer-view:https://example.com/model.gltf-3".

(** A theorem about the whole cache, at the sample collaborators. *)
Local Abbreviation atSamples theorem :=
  (theorem anyString string urlBufferKey string string string string
     string sampleSchemaKey sampleEmbeddedBufferKey sampleGltfKey
     sampleBufferViewKey sampleDracoKey sampleVertexBufferKey
     sampleIndexBufferKey sampleImageKey sampleTextureKey false false false
     false (fun d : string => d)).




Lemma loadSchema_one_source_witness :
  loadSchema anyString string string sampleSchemaKey
    {| schema_schema := Some "{}";
       schema_resource := Some "https://example.com/schema.json";
       schema_keepResident := Some true |} emptyRealm =
  Throw (DeveloperError
           "One of options.schema and options.resource must be defined.")
    emptyRealm.
Proof.
  apply (loadSchema_one_source anyString string string sampleSchemaKey).
  reflexivity.
Defined.

Lemma loadVertexBuffer_validation_witness :
  loadVertexBuffer anyString string string string sampleVertexBufferKey
    false false (fun d : string => d)
    {| vertex_gltf := "model";
       vertex_gltfResource := "https://example.com/model.gltf";
       vertex_baseResource := "https://example.com/";
       vertex_bufferViewId := None;
       vertex_draco := None;
       vertex_dracoAttributeSemantic := Some "POSITION";
       vertex_keepResident := None;
       vertex_asynchronous := None |} emptyRealm =
  Throw (DeveloperError
           "One of options.bufferViewId and options.draco must be defined.")
    emptyRealm.
Proof.
  apply (loadVertexBuffer_validation anyString string string string
           sampleVertexBufferKey false false (fun d : string => d)).
  reflexivity.
Defined.

Lemma loadVertexBuffer_draco_rejected_witness :
  loadVertexBuffer anyString string string string sampleVertexBufferKey
    false false (fun d : string => d)
    {| vertex_gltf := "model";
       vertex_gltfResource := "https://example.com/model.gltf";
       vertex_baseResource := "https://example.com/";
       vertex_bufferViewId := None;
       vertex_draco := Some "KHR_draco_mesh_compression";
       vertex_dracoAttributeSemantic := Some "POSITION";
       vertex_keepResident := None;
       vertex_asynchronous := None |} emptyRealm =
  Throw (CheckFailed "KHR_draco_mesh_compression") emptyRealm.
Proof.
  apply (loadVertexBuffer_draco_rejected anyString string string string
           sampleVertexBufferKey false false (fun d : string => d) _
           "KHR_draco_mesh_compression" emptyRealm);
    reflexivity.
Defined.

Lemma image_formats_required_witness :
  loadImage anyString string string sampleImageKey false false
    (imageRequest None None) emptyRealm =
  Throw (CheckFailed "options.supportedImageFormats.webp") emptyRealm.
Proof.
  apply (atSamples image_formats_required emptyRealm); reflexivity.
Defined.

Lemma emptyRealm_invariants :
  registryOk (cacheEntries emptyRealm) /\ countsOk (cacheEntries emptyRealm).
Proof. split; [apply registryOk_empty | apply countsOk_empty]. Qed.

Lemma sharedRealm_countsOk : countsOk (cacheEntries sharedRealm).
Proof.
  repeat apply countsOk_insert; simpl; try lia; try done.
Qed.


Lemma acquire_then_release_witness :
  exists loader r1 r2,
    sampleLoadTyped (RequestBufferView viewRequest) sharedRealm =
      Normal loader r1 /\
    unload loader r1 = Normal tt r2 /\
    (is_Some (cacheEntries sharedRealm !! viewKey) \/ false = false ->
     cacheEntries r2 = cacheEntries sharedRealm).
Proof.
  apply (atSamples acquire_then_release (RequestBufferView viewRequest)
           sharedRealm).
  - exact sharedRealm_registryOk.
  - exact sharedRealm_countsOk.
  - reflexivity.
  - reflexivity.
Defined.

Lemma get_then_unload_restores_witness :
  (let* _ := get anyString bufferKey in unload bufferB) sharedRealm =
  Normal tt sharedRealm.
Proof.
  apply (get_then_unload_restores anyString bufferKey bufferB
           (bufferEntry 3) sharedRealm).
  - reflexivity.
  - reflexivity.
  - reflexivity.
  - simpl. lia.
  - simpl. lia.
Defined.


Lemma after_clearForSpecs_returned_witness :
  let cleared :=
    {| entriesInOrder := [];
       callsMade := callsMade oneView ++ [DestroyCalled viewV; DestroyCalled bufferA] |} in
  entriesInOrder cleared = [] /\
  (forall loader n,
     unloadWith sampleDependencies (S n) loader cleared =
     Threw (DeveloperError
              ("Resource is not in the cache: " +:+ cacheKey loader)) cleared) /\
  (forall n, clearForSpecsWith sampleDependencies n cleared = Returned cleared).
Proof.
  intros cleared.
  apply (after_clearForSpecs_returned sampleDependencies 1 oneView cleared).
  reflexivity.
Defined.

Lemma clearForSpecs_without_dependencies_witness :
  clearForSpecsWith sampleDependencies 1 sharedOrdered =
  Returned
    {| entriesInOrder := [];
       callsMade :=
         calls sharedRealm ++ [DestroyCalled schemaS; DestroyCalled bufferA] |}.
Proof.
  apply (clearForSpecs_without_dependencies sampleDependencies 1 sharedOrdered).
  - apply (bool_decide_unpack _). vm_compute. reflexivity.
  - intros key entry Hin.
    apply elem_of_cons in Hin as [[= -> ->]|Hin]; [reflexivity|].
    apply elem_of_cons in Hin as [[= -> ->]|Hin]; [reflexivity|].
    by apply elem_of_nil in Hin.
Defined.



Lemma preprocessed_content_shape_witness :
  let glb := list_byte_of_string "glTF-binary-payload" in
  let result := {| contentType := "glb"; binaryPayload := Some glb;
                   jsonPayload := None |} in
  binaryPayload result = Some glb /\
  jsonPayload result = None /\
  sampleIsBinaryFormat (contentType result) = true /\
  contentType result <> "glTF" \/
  binaryPayload result = None /\
  jsonPayload result = sampleParse glb /\
  is_Some (jsonPayload result) /\
  (contentType result = "externalTileset" \/ contentType result = "gltf").
Proof.
  intros glb result.
  apply (preprocessed_content_shape Z sampleMagic sampleIsBinaryFormat
           "externalTileset" "gltf" sampleParse glb result).
  reflexivity.
Defined.

Lemma glTF_magic_is_glb_witness :
  let glb := list_byte_of_string "glTF-binary-payload" in
  preproces3DTileContent sampleMagic sampleIsBinaryFormat "externalTileset"
    "gltf" sampleParse glb =
  inr {| contentType := "glb"; binaryPayload := Some glb; jsonPayload := None |}.
Proof.
  intros glb.
  apply (glTF_magic_is_glb Z sampleMagic sampleIsBinaryFormat
           "externalTileset" "gltf" sampleParse glb); reflexivity.
Defined.

Lemma json_object_classification_witness :
  preproces3DTileContent sampleMagic sampleIsBinaryFormat "externalTileset"
    "gltf" sampleParse (list_byte_of_string "tileset") =
  inr {| contentType := "externalTileset"; binaryPayload := None;
         jsonPayload := Some sampleTileset |} /\
  preproces3DTileContent sampleMagic sampleIsBinaryFormat "externalTileset"
    "gltf" sampleParse (list_byte_of_string "gltf-json") =
  inr {| contentType := "gltf"; binaryPayload := None;
         jsonPayload := Some sampleGltfJson |}.
Proof.
  split.
  - exact (json_object_classification Z sampleMagic sampleIsBinaryFormat
             "externalTileset" "gltf" sampleParse
             (list_byte_of_string "tileset") _ eq_refl eq_refl).
  - exact (json_object_classification Z sampleMagic sampleIsBinaryFormat
             "externalTileset" "gltf" sampleParse
             (list_byte_of_string "gltf-json") _ eq_refl eq_refl).
Defined.

Lemma invalid_tile_content_witness :
  preproces3DTileContent sampleMagic sampleIsBinaryFormat "externalTileset"
    "gltf" sampleParse (list_byte_of_string "null") = inl TypeError /\
  preproces3DTileContent sampleMagic sampleIsBinaryFormat "externalTileset"
    "gltf" sampleParse (list_byte_of_string "[]") =
  inl (RuntimeError "Invalid tile content.") /\
  preproces3DTileContent sampleMagic sampleIsBinaryFormat "externalTileset"
    "gltf" sampleParse (list_byte_of_string "not json") =
  inl (RuntimeError "Invalid tile content.").
Proof.
  split; [|split].
  - apply (invalid_tile_content Z sampleMagic sampleIsBinaryFormat
             "externalTileset" "gltf" sampleParse
             (list_byte_of_string "null")); reflexivity.
  - apply (proj1 (proj2 (invalid_tile_content Z sampleMagic
                           sampleIsBinaryFormat "externalTileset" "gltf"
                           sampleParse (list_byte_of_string "[]") eq_refl))
             (JsonArray [])); [reflexivity | exact I].
  - apply (invalid_tile_content Z sampleMagic sampleIsBinaryFormat
             "externalTileset" "gltf" sampleParse
             (list_byte_of_string "not json")); reflexivity.
Defined.

Lemma sampleCartesian3_ok : PackableOk sampleCartesian3.
Proof.
  split.
  - intros [[x y] z] array i j Hj. simpl in *.
    by rewrite !lookup_insert_ne by lia.
  - intros [[x y] z] array array' i Hwin. simpl in *.
    rewrite (Hwin i), (Hwin (i + 1)%nat), (Hwin (i + 2)%nat) by lia.
    repeat first [rewrite lookup_insert_eq
                 | rewrite lookup_insert_ne by lia].
    reflexivity.
Qed.

Lemma cellFlag_flagCell (flag : bool) : cellFlag (Some (flagCell flag)) = flag.
Proof. by destruct flag. Qed.

Lemma sampleVertexFormat_ok : PackableOk sampleVertexFormat.
Proof.
  split.
  - intros format array i j Hj. simpl in *.
    by rewrite !lookup_insert_ne by lia.
  - intros [f0 f1 f2 f3 f4 f5] array array' i Hwin. simpl in *.
    rewrite (Hwin i), (Hwin (i + 1)%nat), (Hwin (i + 2)%nat),
      (Hwin (i + 3)%nat), (Hwin (i + 4)%nat), (Hwin (i + 5)%nat) by lia.
    repeat first [rewrite lookup_insert_eq
                 | rewrite lookup_insert_ne by lia].
    by rewrite !cellFlag_flagCell.
Qed.

(** The packing functions on whole numbers: [Math.round] changes no
    whole number. *)
Local Abbreviation samplePack :=
  (pack Z (Z * Z * Z)%type SampleVertexFormat (-1) sampleCartesian3
     sampleVertexFormat).

Local Abbreviation sampleUnpack :=
  (unpack Z (Z * Z * Z)%type SampleVertexFormat (fun n => n) (fun n => n <? 3)
     (fun n => n =? -1) 0 64 3142 6283 sampleCartesian3 sampleVertexFormat
     (1, 1, 1) positionOnly).

Local Abbreviation atSampleNumbers theorem :=
  (theorem Z (Z * Z * Z)%type SampleVertexFormat (fun n : Z => n)
     (fun n : Z => n <? 3) (fun n : Z => n =? -1) 0 64 (-1) 3142 6283
     sampleCartesian3 sampleVertexFormat (1, 1, 1) positionOnly).

Lemma pack_unpack_round_trip_witness :
  sampleUnpack (samplePack (sampleEllipsoid (Some 1)) ∅ (Some 4%nat))
    (Some 4%nat) (Some sampleSphere) =
  inr (sampleEllipsoid (Some 1)).
Proof.
  apply (atSampleNumbers pack_unpack_round_trip sampleCartesian3_ok
           sampleVertexFormat_ok (sampleEllipsoid (Some 1)) sampleSphere ∅
           4%nat eq_refl).
  reflexivity.
Defined.

Lemma sampleCartesian3_fills : PackableFills sampleCartesian3.
Proof.
  intros [[x y] z] array array' i j Hj. simpl in *.
  destruct (decide (j = (i + 2)%nat)) as [->|H2];
    [by rewrite !lookup_insert_eq|].
  rewrite !(lookup_insert_ne _ (i + 2)%nat) by lia.
  destruct (decide (j = (i + 1)%nat)) as [->|H1];
    [by rewrite !lookup_insert_eq|].
  rewrite !(lookup_insert_ne _ (i + 1)%nat) by lia.
  assert (j = i) as -> by lia. by rewrite !lookup_insert_eq.
Qed.

Lemma sampleVertexFormat_fills : PackableFills sampleVertexFormat.
Proof.
  intros format array array' i j Hj. simpl in *.
  destruct (decide (j = (i + 5)%nat)) as [->|H5];
    [by rewrite !lookup_insert_eq|].
  rewrite !(lookup_insert_ne _ (i + 5)%nat) by lia.
  destruct (decide (j = (i + 4)%nat)) as [->|H4];
    [by rewrite !lookup_insert_eq|].
  rewrite !(lookup_insert_ne _ (i + 4)%nat) by lia.
  destruct (decide (j = (i + 3)%nat)) as [->|H3];
    [by rewrite !lookup_insert_eq|].
  rewrite !(lookup_insert_ne _ (i + 3)%nat) by lia.
  destruct (decide (j = (i + 2)%nat)) as [->|H2];
    [by rewrite !lookup_insert_eq|].
  rewrite !(lookup_insert_ne _ (i + 2)%nat) by lia.
  destruct (decide (j = (i + 1)%nat)) as [->|H1];
    [by rewrite !lookup_insert_eq|].
  rewrite !(lookup_insert_ne _ (i + 1)%nat) by lia.
  assert (j = i) as -> by lia. by rewrite !lookup_insert_eq.
Qed.

Lemma pack_writes_packedLength_cells_witness :
  samplePack sampleSphere (<[19%nat := 7]> ∅) None !! 19%nat = Some 7 /\
  samplePack sampleSphere (<[3%nat := 7]> ∅) None !! 3%nat =
    samplePack sampleSphere ∅ None !! 3%nat /\
  samplePack sampleSphere ∅ None !! 18%nat = Some 2.
Proof.
  split; [|split].
  - rewrite (proj1 (pack_writes_packedLength_cells Z (Z * Z * Z)%type
                      SampleVertexFormat (-1) sampleCartesian3
                      sampleVertexFormat sampleCartesian3_ok
                      sampleVertexFormat_ok sampleSphere (<[19%nat := 7]> ∅) ∅
                      None 19%nat sampleCartesian3_fills
                      sampleVertexFormat_fills)).
    + reflexivity.
    + right. vm_compute. lia.
  - apply (pack_writes_packedLength_cells Z (Z * Z * Z)%type
             SampleVertexFormat (-1) sampleCartesian3 sampleVertexFormat
             sampleCartesian3_ok sampleVertexFormat_ok sampleSphere
             (<[3%nat := 7]> ∅) ∅ None 3%nat sampleCartesian3_fills
             sampleVertexFormat_fills).
    vm_compute. lia.
  - apply (pack_writes_packedLength_cells Z (Z * Z * Z)%type
             SampleVertexFormat (-1) sampleCartesian3 sampleVertexFormat
             sampleCartesian3_ok sampleVertexFormat_ok sampleSphere
             ∅ ∅ None 0%nat sampleCartesian3_fills
             sampleVertexFormat_fills).
Defined.

Lemma packed_side_by_side_witness :
  let packed :=
    samplePack sampleSphere (samplePack (sampleEllipsoid None) ∅ (Some 0%nat))
      (Some 19%nat) in
  sampleUnpack packed (Some 0%nat) (Some sampleSphere) =
    inr (sampleEllipsoid None) /\
  sampleUnpack packed (Some 19%nat) (Some sampleSphere) = inr sampleSphere.
Proof.
  exact (atSampleNumbers packed_side_by_side sampleCartesian3_ok
           sampleVertexFormat_ok (sampleEllipsoid None) sampleSphere
           sampleSphere ∅ 0%nat).
Defined.

Lemma unpack_constructed_witness :
  sampleUnpack (samplePack (sampleEllipsoid (Some 1)) ∅ (Some 0%nat))
    (Some 0%nat) None =
  inr (sampleEllipsoid (Some 1)).
Proof.
  apply (atSampleNumbers unpack_constructed sampleCartesian3_ok
           sampleVertexFormat_ok
           {| radii := Some (6378137, 6378137, 6356752);
              innerRadii := None;
              minimumClock := None;
              maximumClock := None;
              minimumCone := None;
              maximumCone := None;
              stackPartitions := None;
              slicePartitions := Some 32;
              vertexFormat := Some positionAndNormal;
              offsetAttribute := Some 1 |}).
  - reflexivity.
  - reflexivity.
  - intros n [= <-]. reflexivity.
  - reflexivity.
Defined.

Lemma getUnitEllipsoid_computes_once_witness :
  getUnitEllipsoidTimes (Some sampleSphere) 3
    {| unitEllipsoidGeometry := None; createGeometryCalls := 0 |} =
  ([Some sampleSphere; Some sampleSphere; Some sampleSphere],
   {| unitEllipsoidGeometry := Some sampleSphere; createGeometryCalls := 1 |}).
Proof.
  apply (getUnitEllipsoid_computes_once (Some sampleSphere) 2). reflexivity.
Defined.
